(** * Vectra automated response: firewall adapters (PAN, Sophos)

  A shallow embedding of [common.py], [third_party_clients/pan/pan.py]
  and [third_party_clients/sophos/sophos.py].

  The Python code talks to three outside parties: the OS credential store
  ([keyring]), the operator ([questionary]) and the firewalls ([requests]).
  They are gathered in the class [External]; the code itself is written in
  a state-and-exception monad [M] over a [world] that holds the credential
  store, the state of the firewalls and the trace of everything the code
  did to the outside (HTTP requests, prompts, log lines). *)

From Stdlib Require Import ZArith Ascii Lia.
From Stdlib Require String.
From stdpp Require Import base option list gmap strings.

Set Warnings "-register-all".

(** ** Python values used by the code *)

Module Py.

(** Exceptions the modelled code can raise or let through. *)
Inductive exn :=
| AttributeError (attr : string)
| UnboundLocalError (var : string)
| TypeError
| KeyError (key : string)
| ValueError
| IndexError
| HTTPError (status : Z)
| RequestException
| ParseError
| PasswordSetError
| SystemExit.

#[global] Instance exn_eq_dec : EqDecision exn.
Proof. solve_decision. Defined.

Inductive outcome (A : Type) :=
| Return (a : A)
| Raise (e : exn).
Arguments Return {A} a.
Arguments Raise {A} e.

(** [sep.join(l)] *)
Fixpoint join (sep : string) (l : list string) : string :=
  match l with
  | [] => ""
  | x :: xs =>
      match xs with
      | [] => x
      | _ :: _ => x +:+ sep +:+ join sep xs
      end
  end.

(** [s.split(sep=c)] for a separator of one character: every occurrence
    of the separator cuts, empty fields are kept, and the empty string
    gives one empty field. *)
Fixpoint split (sep : ascii) (s : string) : list string :=
  match s with
  | EmptyString => [""]
  | String c s' =>
      if decide (c = sep) then "" :: split sep s'
      else match split sep s' with
           | [] => [String c ""]
           | x :: xs => String c x :: xs
           end
  end.

(** [s.startswith(p)] *)
Fixpoint startswith (p s : string) : bool :=
  match p, s with
  | EmptyString, _ => true
  | String a p', String b s' => Ascii.eqb a b && startswith p' s'
  | String _ _, EmptyString => false
  end.


(** [x in l] *)
Definition contains (x : string) (l : list string) : bool :=
  bool_decide (x ∈ l).

(** [l.remove(x)]: the first occurrence goes; [None] stands for the
    [ValueError] of a missing element. *)
Fixpoint remove (x : string) (l : list string) : option (list string) :=
  match l with
  | [] => None
  | y :: ys => if decide (y = x) then Some ys else cons y <$> remove x ys
  end.

(** The two shapes of the [modify] argument: the default [False] of
    [_get_api_token], and the pair (store_keys, update_keys) that
    [_get_password] indexes. *)
Inductive modify_arg :=
| ModBool (b : bool)
| ModPair (store_keys update_keys : bool).

(** Truth value of [modify]: a tuple of two elements is never empty. *)
Definition truthy (m : modify_arg) : bool :=
  match m with
  | ModBool b => b
  | ModPair _ _ => true
  end.

(** The character that delimits XML attribute values. *)
Definition dquote : string := String (ascii_of_nat 34) "".

(** [str(x)] of a string that may be [None]. *)
Definition str (o : option string) : string := default "None" o.

(** What a log line puts in its [{}] places, by [.format] or in an
    f-string, when it is not a string the model builds itself. *)
Inductive arg :=
| AStr (s : string)
| AInt (z : Z)
| AList (l : list string)
| ANone.

End Py.
Export Py.

(** ** The outside world *)

(** An XML element as [xml.etree.ElementTree] and [xmltodict] give it. *)
Inductive xml :=
| Element (tag : string) (attrib : list (string * string))
          (text : option string) (children : list xml).

Definition xml_tag (e : xml) : string := let 'Element t _ _ _ := e in t.
Definition xml_attrib (e : xml) : list (string * string) := let 'Element _ a _ _ := e in a.
Definition xml_text (e : xml) : option string := let 'Element _ _ t _ := e in t.
Definition xml_children (e : xml) : list xml := let 'Element _ _ _ c := e in c.

(** [e.findall(tag)]: the direct children with that tag, in order. *)
Definition findall (tag : string) (e : xml) : list xml :=
  filter (λ c, xml_tag c = tag) (xml_children e).

(** [e.find(tag)]: the first of them, or [None]. *)
Definition find (tag : string) (e : xml) : option xml :=
  head (findall tag e).

(** [d[k]] on an attribute dictionary. *)
Fixpoint assoc (k : string) (d : list (string * string)) : option string :=
  match d with
  | [] => None
  | (k', v) :: d' => if decide (k' = k) then Some v else assoc k d'
  end.

Inductive request :=
| Get (url : string) (verify : bool)
| Post (url : string) (data : list (string * option string)) (verify : bool).

(** A response: its status code and its body, [None] when the body is not
    well-formed XML. *)
Record response := Response { status_code : Z; body : option xml }.

Inductive level := Debug | Info | Warning | Error.

Inductive event :=
| EvHttp (r : request)
| EvPrompt (msg : string)
| EvLog (lvl : level) (msg : string) (args : list arg)
| EvPrint (msg : string).

(** What the code cannot see into. *)
Class External := {
  (** state of the firewalls behind [requests] *)
  Srv : Type;
  (** [requests.get] / [requests.post]: a response or a transport error *)
  server : request → Srv → (exn + response) * Srv;
  (** [questionary.password(msg).ask()]: [None] when the operator declines *)
  ask : string → option string;
  (** whether the keyring backend accepts [set_password(system, key, secret)] *)
  set_password_ok : string → string → string → bool;
  (** whether [ipaddress.ip_address(ip)] returns (rather than raising [ValueError]) *)
  ipaddress_ip_address : string → bool;
  (** [urllib.parse.quote_plus] *)
  quote_plus : string → string;
}.

Section World.
Context `{External}.

Record world := World {
  keyring_db : gmap (string * string) string;
  fw : Srv;
  trace : list event;
}.

(** State and exceptions: the world is kept when an exception is raised. *)
Definition M (A : Type) : Type := world → outcome A * world.

Definition ret {A} (a : A) : M A := λ w, (Return a, w).
Definition raise {A} (e : exn) : M A := λ w, (Raise e, w).
Definition bind {A B} (m : M A) (k : A → M B) : M B :=
  λ w, match m w with
       | (Return a, w') => k a w'
       | (Raise e, w') => (Raise e, w')
       end.

(** [try: m except e: h] for one exception class. *)
Definition try_except {A} (m : M A) (e : exn) (h : M A) : M A :=
  λ w, match m w with
       | (Raise e', w') => if decide (e' = e) then h w' else (Raise e', w')
       | r => r
       end.

Definition emit (e : event) : M unit :=
  λ w, (Return (), World (keyring_db w) (fw w) (trace w ++ [e])).

(** [for x in l: body(x)] *)
Fixpoint for_each {A B} (l : list A) (body : A → M B) : M unit :=
  match l with
  | [] => ret ()
  | x :: xs => bind (body x) (λ _, for_each xs body)
  end.

(** [for x in l: acc.append(body(x))], giving [acc] *)
Fixpoint collect {A B} (l : list A) (body : A → M B) : M (list B) :=
  match l with
  | [] => ret []
  | x :: xs => bind (body x) (λ y, bind (collect xs body) (λ ys, ret (y :: ys)))
  end.

(** [option] read as a Python value that may be [None]: using [None]
    where an object is needed raises. *)
Definition unwrap {A} (o : option A) (e : exn) : M A :=
  match o with
  | Some a => ret a
  | None => raise e
  end.

(** *** keyring *)
Definition keyring_get_password (system key : string) : M (option string) :=
  λ w, (Return (keyring_db w !! (system, key)), w).

Definition keyring_set_password (system key secret : string) : M unit :=
  λ w, if set_password_ok system key secret
       then (Return (), World (<[(system, key) := secret]> (keyring_db w)) (fw w) (trace w))
       else (Raise PasswordSetError, w).

(** *** questionary *)
Definition questionary_password_ask (msg : string) : M (option string) :=
  bind (emit (EvPrompt msg)) (λ _, ret (ask msg)).

(** *** requests *)
Definition send (r : request) : M response :=
  λ w, let w1 := World (keyring_db w) (fw w) (trace w ++ [EvHttp r]) in
       match server r (fw w) with
       | (inr resp, s) => (Return resp, World (keyring_db w1) s (trace w1))
       | (inl e, s) => (Raise e, World (keyring_db w1) s (trace w1))
       end.

Definition requests_get (url : string) (verify : bool) : M response :=
  send (Get url verify).

Definition requests_post (url : string) (data : list (string * option string))
    (verify : bool) : M response :=
  send (Post url data verify).

(** [response.raise_for_status()] *)
Definition raise_for_status (r : response) : M unit :=
  if bool_decide (400 ≤ status_code r < 600)%Z
  then raise (HTTPError (status_code r)) else ret ().

(** *** logging and print *)
Definition log (lvl : level) (msg : string) (args : list arg) : M unit :=
  emit (EvLog lvl msg args).

Definition print (msg : string) : M unit := emit (EvPrint msg).

(** The HTTP requests of a trace, in order. *)
Definition http_requests (t : list event) : list request :=
  omap (λ e, match e with EvHttp r => Some r | _ => None end) t.

(** The operator prompts of a trace, in order. *)
Definition prompts (t : list event) : list string :=
  omap (λ e, match e with EvPrompt m => Some m | _ => None end) t.

End World.

Declare Scope py_scope.
Delimit Scope py_scope with py.
Notation "x <- m ;; k" := (bind m (λ x, k))
  (at level 100, m at next level, right associativity) : py_scope.
Notation "m ;;; k" := (bind m (λ _, k))
  (at level 100, right associativity) : py_scope.
Local Open Scope py_scope.

(** ** common.py *)

Module Common.
Section Common.
Context `{External}.

Definition _get_password (system key : string) (modify : modify_arg)
    : M (option string) :=
  match modify with
  | ModBool _ => raise TypeError (* a bool cannot be indexed *)
  | ModPair store_keys update_keys =>
      password <- keyring_get_password system key ;;
      password <- (if update_keys || bool_decide (password = None)
                   then questionary_password_ask
                          ("Enter the " +:+ system +:+ " " +:+ key +:+ ": ")
                   else ret password) ;;
      (if store_keys then
         match password with
         | Some p =>
             try_except (keyring_set_password system key p) PasswordSetError
               (print "Failed to store password")
         | None => ret ()
         end
       else ret ()) ;;;
      ret password
  end.

End Common.
End Common.

(** ** third_party_interface.py *)

(** Modelled from the spec: the classes [VectraHost], [VectraAccount],
    [VectraDetection] and [VectraStaticIP] of [third_party_interface.py]
    (data model, section 3), with the fields the adapters read. *)
Record VectraHost := {
  host_name : string;
  host_ip : string;
  host_blocked_elements : gmap string (list string);
}.

Record VectraAccount := { account_name : string }.

Record VectraDetection := {
  detection_id : Z;
  detection_dst_ips : list string;
  detection_blocked_elements : gmap string (list string);
}.

Record VectraStaticIP := { static_dst_ips : list string }.

(** Modelled from the spec: the verbs [ThirdPartyInterface] declares
    (section 6), under the names the adapters override them with. *)
Definition ThirdPartyInterface_verbs : list string :=
  ["block_host"; "unblock_host"; "block_account"; "unblock_account";
   "groom_host"; "block_detection"; "unblock_detection";
   "block_static_dst_ips"; "unblock_static_dst_ips"].

(** [d.get(k, [])] *)
Definition get_or_empty (d : gmap string (list string)) (k : string) : list string :=
  default [] (d !! k).

(** ** third_party_clients/pan/pan.py *)

Module Pan.
Section Pan.
Context `{External}.

(** pan_config.py *)
Variable URLS : list string.
Variable VERIFY_SSL : bool.
Variable INTERNAL_BLOCK_TAG : string.
Variable EXTERNAL_BLOCK_TAG : string.

(** An element of [self.firewalls]: the dict with keys url and api_key. *)
Record Firewall := { url : string; api_key : string }.

Record Client := {
  name : string;
  firewalls : list Firewall;
  verify : bool;
  internal_block_tag : string;
  external_block_tag : string;
}.

Definition _get_keyring_password (system username : string) : M (option string) :=
  response <- keyring_get_password system username ;;
  if bool_decide (response = None) || bool_decide (response = Some "")
  then ret None
  else ret response.

(** [xmltodict.parse(r.content)['response']['result']['key']] *)
Definition keygen_key (r : response) : M (option string) :=
  root <- unwrap (body r) ParseError ;;
  (if decide (xml_tag root = "response") then ret () else raise (KeyError "response")) ;;;
  result <- unwrap (find "result" root) (KeyError "result") ;;
  key <- unwrap (find "key" result) (KeyError "key") ;;
  ret (xml_text key).

Definition _get_api_token (pan_url : string) (modify : modify_arg) : M string :=
  api_token <- _get_keyring_password pan_url "API_Key" ;;
  (* [payload] is bound only inside the [if] *)
  payload <- (if bool_decide (api_token = None) || truthy modify then
                username <- Common._get_password pan_url "username" modify ;;
                password <- Common._get_password pan_url "password" modify ;;
                ret (Some [("user", username); ("password", password)])
              else ret None) ;;
  data <- unwrap payload (UnboundLocalError "payload") ;;
  r <- requests_post (pan_url +:+ "/api/?type=keygen") data false ;;
  api_token <- keygen_key r ;;
  (* an empty key element parses to [None], which keyring does not store *)
  api_token <- unwrap api_token TypeError ;;
  keyring_set_password pan_url "API_Key" api_token ;;;
  ret api_token.

(** The constructor, up to the call of the parent's constructor. *)
Definition __init__ (modify : modify_arg) : M Client :=
  firewalls <- collect URLS (λ url,
                 api_key <- _get_api_token url modify ;;
                 ret {| url := url; api_key := api_key |}) ;;
  ret {| name := "PAN Client";
         firewalls := firewalls;
         verify := VERIFY_SSL;
         internal_block_tag := INTERNAL_BLOCK_TAG;
         external_block_tag := EXTERNAL_BLOCK_TAG |}.

(** One tag entry of a command. *)
Definition entry (tag ip : string) : string :=
  "<entry ip=" +:+ dquote +:+ ip +:+ dquote +:+ "><tag><member>" +:+ tag
  +:+ "</member></tag></entry>".

(** The command of a register ([action] = register) or unregister call. *)
Definition command (action : string) (ip_addresses : list string) (tag : string) : string :=
  "<uid-message><version>1.0</version><type>update</type><payload><" +:+ action +:+ ">"
  +:+ join "" (map (entry tag) ip_addresses)
  +:+ "</" +:+ action +:+ "></payload></uid-message>".

Definition _register_address (self : Client) (firewall : Firewall)
    (ip_addresses : list string) (tag : string) : M (list string) :=
  let command := command "register" ip_addresses tag in
  let payload := [("type", Some "user-id"); ("key", Some (api_key firewall));
                  ("cmd", Some command)] in
  r <- requests_post (url firewall +:+ "/api/") payload (verify self) ;;
  if bool_decide (status_code r ∈ [200; 201]%Z) then
    (log Info "Registered IP(s):{} with firewall {}"
       [AList ip_addresses; AStr (url firewall)] ;;;
     ret ip_addresses)
  else
    (log Info "Unable to registered IP(s):{} with firewall {}"
       [AList ip_addresses; AStr (url firewall)] ;;;
     ret []).

Definition _unregister_address (self : Client) (firewall : Firewall)
    (ip_addresses : list string) (tag : string) : M (list string) :=
  let command := command "unregister" ip_addresses tag in
  let payload := [("type", Some "user-id"); ("key", Some (api_key firewall));
                  ("cmd", Some command)] in
  r <- requests_post (url firewall +:+ "/api/") payload (verify self) ;;
  if bool_decide (status_code r ∈ [200; 201]%Z) then
    (log Info "Unregistered IP(s):{} with firewall {}"
       [AList ip_addresses; AStr (url firewall)] ;;;
     ret ip_addresses)
  else
    (log Info "Unable to unregistered IP(s):{} with firewall {}"
       [AList ip_addresses; AStr (url firewall)] ;;;
     ret []).

(** The names bound in the body of [class Client]. *)
Definition Client_defs : list string :=
  ["__init__"; "_get_keyring_password"; "block_host"; "block_account";
   "unblock_host"; "unblock_account"; "groom_host"; "block_detection";
   "unblock_detection"; "block_static_dst_ips"; "unblock_static_dst_ips";
   "_get_api_token"; "_register_address"; "_unregister_address"].

(** The attributes [__init__] sets on the instance. *)
Definition Client_fields : list string :=
  ["name"; "logger"; "firewalls"; "verify"; "internal_block_tag";
   "external_block_tag"].

(** [self.<attr>(firewall, ip_addresses, tag)]: the attribute is looked up
    on the instance, on [Client] and on [ThirdPartyInterface]. Only the two
    address methods take these arguments; a name that is bound nowhere
    raises [AttributeError]. *)
Definition call_method (self : Client) (attr : string) (firewall : Firewall)
    (ip_addresses : list string) (tag : string) : M (list string) :=
  if decide (attr = "_register_address") then
    _register_address self firewall ip_addresses tag
  else if decide (attr = "_unregister_address") then
    _unregister_address self firewall ip_addresses tag
  else if bool_decide (attr ∈ Client_fields ++ Client_defs ++ ThirdPartyInterface_verbs)
  then raise TypeError
  else raise (AttributeError attr).

Definition block_host (self : Client) (host : VectraHost) : M (list string) :=
  let ip_address := host_ip host in
  for_each (firewalls self) (λ firewall,
    call_method self "_register_address" firewall [ip_address]
      (internal_block_tag self)) ;;;
  ret [ip_address].

Definition block_account (self : Client) (account : VectraAccount) : M (list string) :=
  log Warning "PAN client does not implement account blocking" [] ;;;
  ret [].

Definition unblock_host (self : Client) (host : VectraHost) : M (list string) :=
  let ip_addresses := get_or_empty (host_blocked_elements host) (name self) in
  (if bool_decide (length ip_addresses < 1)%nat
   then log Error "No IP address found for host {}" [AStr (host_name host)]
   else ret ()) ;;;
  for_each (firewalls self) (λ firewall,
    call_method self "_unregister_address" firewall ip_addresses
      (internal_block_tag self)) ;;;
  ret ip_addresses.

Definition unblock_account (self : Client) (account : VectraAccount) : M (list string) :=
  log Warning "PAN client does not implement account blocking" [] ;;;
  ret [].

Definition groom_host (self : Client) (host : VectraHost) : M (list string) :=
  log Warning "PAN client does not implement host grooming" [] ;;;
  ret [].

Definition block_detection (self : Client) (detection : VectraDetection)
    : M (list string) :=
  let ip_addresses := detection_dst_ips detection in
  for_each (firewalls self) (λ firewall,
    call_method self "register_address" firewall ip_addresses
      (external_block_tag self)) ;;;
  ret ip_addresses.

Definition unblock_detection (self : Client) (detection : VectraDetection)
    : M (list string) :=
  let ip_addresses := get_or_empty (detection_blocked_elements detection) (name self) in
  (if bool_decide (length ip_addresses < 1)%nat
   then log Error "No IP address found for Detection ID {}" [AInt (detection_id detection)]
   else ret ()) ;;;
  for_each (firewalls self) (λ firewall,
    call_method self "unregister_address" firewall ip_addresses
      (external_block_tag self)) ;;;
  ret ip_addresses.

Definition block_static_dst_ips (self : Client) (ips : VectraStaticIP)
    : M (list string) :=
  let ip_addresses := static_dst_ips ips in
  log Info "Received static IPs: {} for PAN to block" [AList ip_addresses] ;;;
  for_each (firewalls self) (λ firewall,
    call_method self "register_address" firewall ip_addresses
      (external_block_tag self)) ;;;
  ret ip_addresses.

Definition unblock_static_dst_ips (self : Client) (ips : VectraStaticIP)
    : M (list string) :=
  let ip_addresses := static_dst_ips ips in
  log Info "Received IPs: {} for PAN to unblock" [AList ip_addresses] ;;;
  (if bool_decide (length ip_addresses < 1)%nat
   then log Error "No IP addresses supplied for static destination unblock" []
   else ret ()) ;;;
  for_each (firewalls self) (λ firewall,
    call_method self "unregister_address" firewall ip_addresses
      (external_block_tag self)) ;;;
  ret ip_addresses.

End Pan.
End Pan.

(** ** third_party_clients/sophos/sophos.py *)

Module Sophos.
Section Sophos.
Context `{External}.

(** sophos_config.py; [PORT] as it prints. *)
Variable BLOCK_LIST_NAME : string.
Variable HOSTNAME : string.
Variable PORT : string.
Variable IS_ENCRYPTED : bool.

Record Client := {
  name : string;
  module : string;
  baseurl : string;
  login_xml : string;
}.

(** [ET.fromstring(r.text)] *)
Definition fromstring (r : response) : M xml := unwrap (body r) ParseError.

Definition _make_api_call (self : Client) (request_xml : string) : M response :=
  let full_reqxml := "<Request>" +:+ login_xml self +:+ request_xml +:+ "</Request>" in
  log Debug ("Making request: " +:+ baseurl self +:+ full_reqxml) [] ;;;
  let reqxml_encoded := quote_plus full_reqxml in
  let url := baseurl self +:+ reqxml_encoded in
  response <- requests_get url false ;;
  raise_for_status response ;;;
  ret response.

Definition _login_check (self : Client) : M unit :=
  r <- _make_api_call self "" ;;
  xml <- fromstring r ;;
  login <- unwrap (find "Login" xml) (AttributeError "find") ;;
  status <- unwrap (find "status" login) (AttributeError "text") ;;
  if bool_decide (xml_text status = Some "Authentication Successful") then
    log Info "Sophos Firewall Integration API Login Check Successful" []
  else
    (log Error "Sophos Firewall Integration API Login Check Failed. Please check credentials." [] ;;;
     raise SystemExit).

(** The constructor, up to the call of the parent's constructor; the
    set-up of the logger ([init_log]) is left out. *)
Definition __init__ (modify : modify_arg) : M Client :=
  username <- Common._get_password "Sophos" "Username" modify ;;
  password <- Common._get_password "Sophos" "Password" modify ;;
  let self :=
    {| name := "Sophos Client";
       module := "sophos";
       baseurl := "https://" +:+ HOSTNAME +:+ ":" +:+ PORT
                  +:+ "/webconsole/APIController?reqxml=";
       login_xml := "<Login><Username>" +:+ str username
                    +:+ "</Username><Password passwordform=" +:+ dquote
                    +:+ (if IS_ENCRYPTED then "encrypted" else "plain") +:+ dquote
                    +:+ ">" +:+ str password +:+ "</Password></Login>" |} in
  _login_check self ;;;
  ret self.

(** The action fragment of the list fetch. *)
Definition get_xml : string :=
  "<Get><IPHost><Filter><key name=" +:+ dquote +:+ "Name" +:+ dquote
  +:+ " criteria=" +:+ dquote +:+ "=" +:+ dquote +:+ ">" +:+ BLOCK_LIST_NAME
  +:+ "</key></Filter></IPHost></Get>".

(** The action fragment of the list push. *)
Definition set_xml (ip_csv : string) : string :=
  "<Set operation=" +:+ dquote +:+ "update" +:+ dquote +:+ "><IPHost><Name>"
  +:+ BLOCK_LIST_NAME
  +:+ "</Name><IPFamily>IPv4</IPFamily><HostType>IPList</HostType><ListOfIPAddresses>"
  +:+ ip_csv +:+ "</ListOfIPAddresses></IPHost></Set>".

Definition _get_blocked_ips (self : Client) : M (list string) :=
  r <- _make_api_call self get_xml ;;
  xml <- fromstring r ;;
  let iphosts := findall "IPHost" xml in
  (if bool_decide (1 < length iphosts)%nat then
     log Warning ("Multiple IPHosts with Name equaling " +:+ dquote +:+ BLOCK_LIST_NAME
                  +:+ dquote +:+ " found. Using first one. Please verify firewall is setup according to documentation.") []
   else if bool_decide (length iphosts = 0)%nat then
     (log Error ("No IPHost with Name equaling " +:+ dquote +:+ BLOCK_LIST_NAME
                 +:+ dquote +:+ " found. Please verify firewall is setup according to documentation.") [] ;;;
      raise SystemExit)
   else ret ()) ;;;
  first <- unwrap (head iphosts) IndexError ;;
  addresses <- unwrap (find "ListOfIPAddresses" first) (AttributeError "text") ;;
  text <- unwrap (xml_text addresses) (AttributeError "split") ;;
  let blocked_ips := split ","%char text in
  log Debug "Retrieved currently blocked ips: {}" [AList blocked_ips] ;;;
  ret blocked_ips.

Definition _update_blocked_ips (self : Client) (ips_to_block : list string) : M bool :=
  let ip_csv := join "," ips_to_block in
  r <- _make_api_call self (set_xml ip_csv) ;;
  xml <- fromstring r ;;
  iphost <- unwrap (find "IPHost" xml) (AttributeError "find") ;;
  status <- unwrap (find "Status" iphost) (AttributeError "attrib") ;;
  status_code <- unwrap (assoc "code" (xml_attrib status)) (KeyError "code") ;;
  let status_msg := xml_text status in
  if bool_decide (status_code ≠ "200") then
    (log Error ("Error updating IP list of IPHost " +:+ dquote +:+ BLOCK_LIST_NAME
                +:+ dquote +:+ ". (Status Code: {} - Message: {})")
       [AStr status_code; match status_msg with Some m => AStr m | None => ANone end] ;;;
     ret false)
  else ret true.

Definition _validate_ip_address (self : Client) (ip : string) : bool :=
  ipaddress_ip_address ip.

Definition _block_ip (self : Client) (ip : string) : M (list string) :=
  if _validate_ip_address self ip then
    blocked_ips <- _get_blocked_ips self ;;
    if negb (contains ip blocked_ips) then
      let blocked_ips := blocked_ips ++ [ip] in
      ok <- _update_blocked_ips self blocked_ips ;;
      if ok then ret [ip] else ret []
    else ret []
  else ret [].

Definition _unblock_ip (self : Client) (ip : string) : M (list string) :=
  if _validate_ip_address self ip then
    blocked_IPs <- _get_blocked_ips self ;;
    if contains ip blocked_IPs then
      blocked_IPs <- unwrap (remove ip blocked_IPs) ValueError ;;
      ok <- _update_blocked_ips self blocked_IPs ;;
      if ok then ret [ip] else ret []
    else ret []
  else ret [].

Definition block_host (self : Client) (host : VectraHost) : M (list string) :=
  _block_ip self (host_ip host).

Definition unblock_host (self : Client) (host : VectraHost) : M (list string) :=
  _unblock_ip self (host_ip host).

Definition groom_host (self : Client) (host : VectraHost) : M (list string) :=
  log Warning "Sophos client does not implement host grooming" [] ;;;
  ret [].

Definition block_account (self : Client) (account : VectraAccount) : M (list string) :=
  log Warning "Sophos client does not implement account-based blocking" [] ;;;
  ret [].

Definition unblock_account (self : Client) (account : VectraAccount) : M (list string) :=
  log Warning "Sophos client does not implement account-based blocking" [] ;;;
  ret [].

Definition block_detection (self : Client) (detection : VectraDetection)
    : M (list string) :=
  log Warning "Sophos client does not implement detection-based blocking" [] ;;;
  ret [].

Definition unblock_detection (self : Client) (detection : VectraDetection)
    : M (list string) :=
  ret [].

Definition block_static_dst_ips (self : Client) (ips : VectraStaticIP)
    : M (list string) :=
  log Warning "Sophos client does not implement static IP-based blocking" [] ;;;
  ret [].

Definition unblock_static_dst_ips (self : Client) (ips : VectraStaticIP)
    : M (list string) :=
  log Warning "Sophos client does not implement static IP-based blocking" [] ;;;
  ret [].

(** *** What goes over the wire

    The URL [_make_api_call] requests for an action fragment, and what the
    code reads in a response. *)

Definition api_url (self : Client) (request_xml : string) : string :=
  baseurl self +:+ quote_plus ("<Request>" +:+ login_xml self +:+ request_xml +:+ "</Request>").

Definition fetch_url (self : Client) : string := api_url self get_xml.

Definition push_url (self : Client) (ip_csv : string) : string :=
  api_url self (set_xml ip_csv).

(** [raise_for_status] lets the response through. *)
Definition http_ok (r : response) : bool :=
  negb (bool_decide (400 ≤ status_code r < 600)%Z).

(** The address field [_get_blocked_ips] reads: that of the first [IPHost]. *)
Definition listed_text (r : response) : option string :=
  root ← body r; first ← head (findall "IPHost" root);
  addresses ← find "ListOfIPAddresses" first; xml_text addresses.

(** The status code [_update_blocked_ips] reads. *)
Definition push_status (r : response) : option string :=
  root ← body r; iphost ← find "IPHost" root; status ← find "Status" iphost;
  assoc "code" (xml_attrib status).

End Sophos.
End Sophos.

(** ** A bench of concrete firewalls

    Concrete instances of [External] on which the adapters run: a Sophos
    firewall that keeps the address list it is sent, and a PAN firewall
    that answers every user-id call with a fixed status. *)

Module Bench.

(** Dotted-quad IPv4 addresses, the addresses of the scenarios; the bench
    accepts these and nothing else. *)
Definition is_digit (c : ascii) : bool :=
  (48 <=? nat_of_ascii c)%nat && (nat_of_ascii c <=? 57)%nat.

Fixpoint all_digits (s : string) : bool :=
  match s with
  | EmptyString => true
  | String c s' => is_digit c && all_digits s'
  end.

Fixpoint decimal (acc : nat) (s : string) : nat :=
  match s with
  | EmptyString => acc
  | String c s' => decimal (10 * acc + (nat_of_ascii c - 48)) s'
  end.

Definition octet (s : string) : bool :=
  match s with
  | EmptyString => false
  | String c rest =>
      all_digits s && (String.length s <=? 3)%nat
      && (negb (Ascii.eqb c "0") || String.eqb rest "")
      && (decimal 0 s <=? 255)%nat
  end.

Definition dotted_quad (s : string) : bool :=
  match split "." s with
  | [a; b; c; d] => octet a && octet b && octet c && octet d
  | _ => false
  end.

(** *** Sophos *)

Definition BLOCK_LIST_NAME : string := "VectraBlocklist".

Definition sophos : Sophos.Client :=
  {| Sophos.name := "Sophos Client";
     Sophos.module := "sophos";
     Sophos.baseurl := "https://fw.example:4444/webconsole/APIController?reqxml=";
     Sophos.login_xml := "<Login><Username>admin</Username><Password passwordform="
                         +:+ dquote +:+ "plain" +:+ dquote
                         +:+ ">secret</Password></Login>" |}.

(** The bench leaves request text as it is. *)
Definition plain_url (request_xml : string) : string :=
  Sophos.baseurl sophos +:+ "<Request>" +:+ Sophos.login_xml sophos
  +:+ request_xml +:+ "</Request>".

Definition push_prefix : string :=
  Sophos.baseurl sophos +:+ "<Request>" +:+ Sophos.login_xml sophos
  +:+ "<Set operation=" +:+ dquote +:+ "update" +:+ dquote +:+ "><IPHost><Name>"
  +:+ BLOCK_LIST_NAME
  +:+ "</Name><IPFamily>IPv4</IPFamily><HostType>IPList</HostType><ListOfIPAddresses>".

Definition push_suffix : string := "</ListOfIPAddresses></IPHost></Set></Request>".

Fixpoint drop_chars (n : nat) (s : string) : string :=
  match n, s with
  | S n', String _ s' => drop_chars n' s'
  | _, _ => s
  end.

Fixpoint take_chars (n : nat) (s : string) : string :=
  match n, s with
  | S n', String c s' => String c (take_chars n' s')
  | _, _ => EmptyString
  end.

(** The address field of a push request. *)
Definition pushed_csv (url : string) : string :=
  take_chars (String.length url - String.length push_prefix - String.length push_suffix)
    (drop_chars (String.length push_prefix) url).

Definition login_reply : xml :=
  Element "Login" [] None [Element "status" [] (Some "Authentication Successful") []].

(** The reply to a fetch. An empty list comes back as an element without
    character data, which [ET.fromstring] reads as [None], never as the
    empty string. *)
Definition fetch_reply (text : string) : response :=
  {| status_code := 200;
     body := Some (Element "Response" [] None
               [login_reply;
                Element "IPHost" [] None
                  [Element "Name" [] (Some BLOCK_LIST_NAME) [];
                   Element "ListOfIPAddresses" []
                     (if String.eqb text "" then None else Some text) []]]) |}.

Definition push_reply : response :=
  {| status_code := 200;
     body := Some (Element "Response" [] None
               [login_reply;
                Element "IPHost" [] None
                  [Element "Status" [("code", "200")]
                     (Some "Configuration applied successfully.") []]]) |}.

(** The firewall holds the text of the address list: a fetch shows it, a
    push replaces it. *)
Definition sophos_server (r : request) (held : string) : (exn + response) * string :=
  match r with
  | Get url _ =>
      if String.eqb url (plain_url (Sophos.get_xml BLOCK_LIST_NAME))
      then (inr (fetch_reply held), held)
      else if startswith push_prefix url
      then (inr push_reply, pushed_csv url)
      else (inr {| status_code := 200;
                   body := Some (Element "Response" [] None [login_reply]) |}, held)
  | Post _ _ _ => (inl RequestException, held)
  end.

Definition sophos_bench : External :=
  {| Srv := string;
     server := sophos_server;
     ask := λ _, None;
     set_password_ok := λ _ _ _, true;
     ipaddress_ip_address := dotted_quad;
     quote_plus := λ s, s |}.

(** The world in which the firewall holds [text] and nothing has happened. *)
Definition sophos_world (text : string) : @world sophos_bench :=
  @World sophos_bench ∅ text [].

Definition host (ip : string) : VectraHost :=
  {| host_name := "workstation"; host_ip := ip; host_blocked_elements := ∅ |}.

(** *** PAN *)

Definition pan_url : string := "https://pan.example".

Definition keygen_reply : response :=
  {| status_code := 200;
     body := Some (Element "response" [("status", "success")] None
               [Element "result" [] None [Element "key" [] (Some "fresh-token") []]]) |}.

(** The keygen call gives a token; every other POST gets [status]. *)
Definition pan_server (status : Z) (r : request) (s : unit) : (exn + response) * unit :=
  match r with
  | Post url _ _ =>
      if String.eqb url (pan_url +:+ "/api/?type=keygen")
      then (inr keygen_reply, s)
      else (inr {| status_code := status; body := None |}, s)
  | Get _ _ => (inl RequestException, s)
  end.

Definition pan_bench (status : Z) : External :=
  {| Srv := unit;
     server := pan_server status;
     ask := λ _, Some "typed-by-operator";
     set_password_ok := λ _ _ _, true;
     ipaddress_ip_address := dotted_quad;
     quote_plus := λ s, s |}.

Definition pan_world (status : Z) (db : gmap (string * string) string)
    : @world (pan_bench status) :=
  @World (pan_bench status) db () [].

Definition pan : Pan.Client :=
  {| Pan.name := "PAN Client";
     Pan.firewalls := [ {| Pan.url := pan_url; Pan.api_key := "cached-token" |} ];
     Pan.verify := false;
     Pan.internal_block_tag := "VectraInternal";
     Pan.external_block_tag := "VectraExternal" |}.

(** A credential store in which the token and the login of [pan_url] are set. *)
Definition full_keyring : gmap (string * string) string :=
  <[(pan_url, "API_Key") := "cached-token"]>
    (<[(pan_url, "username") := "admin"]>
       (<[(pan_url, "password") := "secret"]> ∅)).

(** A credential store that holds the Sophos login. *)
Definition sophos_keyring : gmap (string * string) string :=
  <[("Sophos", "Username") := "admin"]> (<[("Sophos", "Password") := "secret"]> ∅).

(** A credential store whose Sophos user name was set and then emptied. *)
Definition emptied_keyring : gmap (string * string) string :=
  {[ ("Sophos", "Username") := "" ]}.

Definition detection (ips : list string) : VectraDetection :=
  {| detection_id := 7; detection_dst_ips := ips; detection_blocked_elements := ∅ |}.


End Bench.

(** ** Observations used in the statements *)

Section Observations.
Context `{External}.

(** A verb that gives the empty list and leaves the firewalls and the
    credential store alone: it sends no HTTP request and asks nothing. *)
Definition quiet (m : M (list string)) : Prop :=
  ∀ w, ∃ w',
    m w = (Return [], w')
    ∧ http_requests (trace w') = http_requests (trace w)
    ∧ prompts (trace w') = prompts (trace w)
    ∧ fw w' = fw w
    ∧ keyring_db w' = keyring_db w.

(** From [w] to [w']: the HTTP requests [reqs] were sent, in this order and
    no others, the firewalls are in state [s], and the credential store is
    as before. *)
Definition after (w : world) (reqs : list request) (s : Srv) (w' : world) : Prop :=
  http_requests (trace w') = http_requests (trace w) ++ reqs
  ∧ fw w' = s
  ∧ keyring_db w' = keyring_db w.


End Observations.

(** The POST of a PAN register or unregister call: the user-id request
    with the token of the endpoint and the command of the given IPs. *)
Definition address_post (self : Pan.Client) (firewall : Pan.Firewall)
    (action : string) (ip_addresses : list string) (tag : string) : request :=
  Post (Pan.url firewall +:+ "/api/")
    [("type", Some "user-id"); ("key", Some (Pan.api_key firewall));
     ("cmd", Some (Pan.command action ip_addresses tag))]
    (Pan.verify self).



(** Occurrences of the opening of a tag entry in a command. *)
Fixpoint count_entries (s : string) : nat :=
  match s with
  | EmptyString => 0
  | String _ s' => (if startswith "<entry " s then 1 else 0) + count_entries s'
  end.

(** ** sophos.py: the set-up of the logger *)

Module SophosLog.
Section SophosLog.

(** The configuration of one logger, handler or formatter. *)
Variable cfg : Type.

(** An entry of the logging configuration: a table of named
    configurations (loggers, handlers, formatters) or anything else
    (the version number, a flag). *)
Inductive entry :=
| Table (t : gmap string cfg)
| Scalar.

(** Whether [logging.config.dictConfig] takes the configuration; it raises
    [ValueError] when it does not. *)
Variable dictConfig_ok : gmap string entry → bool.

(** [init_log(self, kwargs)], with [self.name] and [kwargs.get] of the
    configuration as arguments. The dict is changed in place; the result is
    the dict as the call leaves it. *)
Definition init_log (name : string) (kwargs_dict_config : option (gmap string entry))
    : outcome (gmap string entry) :=
  let dict_config := default ∅ kwargs_dict_config in
  match dict_config !! "loggers" with
  | None => Raise (KeyError "loggers")
  | Some Scalar => Raise (AttributeError "update")
  | Some (Table loggers) =>
      match loggers !! "VAR" with
      | None => Raise (KeyError "VAR")
      | Some var =>
          let dict_config := <["loggers" := Table (<[name := var]> loggers)]> dict_config in
          if dictConfig_ok dict_config then Return dict_config else Raise ValueError
      end
  end.

(** [dict_config["loggers"][k]] *)
Definition logger_of (dict_config : gmap string entry) (k : string) : option cfg :=
  match dict_config !! "loggers" with
  | Some (Table loggers) => loggers !! k
  | _ => None
  end.

(** The constructor of the Sophos client as a whole: the logger is set up
    first, under the name of the client, then the credentials are resolved
    and the login is checked ([Sophos.__init__]). *)
Definition __init__ `{External} (HOSTNAME PORT : string) (IS_ENCRYPTED : bool)
    (kwargs_dict_config : option (gmap string entry)) (modify : modify_arg)
    : M Sophos.Client :=
  match init_log "Sophos Client" kwargs_dict_config with
  | Raise e => raise e
  | Return _ => Sophos.__init__ HOSTNAME PORT IS_ENCRYPTED modify
  end.

End SophosLog.
End SophosLog.

(** ** Firewalls without memory *)

Module Lab.

(** Every request gets the reply [reply] gives it; the operator answers by
    [answer]; the credential store takes writes or refuses them all. *)
Definition fixed (reply : request → exn + response) (answer : string → option string)
    (writable : bool) : External :=
  {| Srv := unit;
     server := λ r s, (reply r, s);
     ask := answer;
     set_password_ok := λ _ _ _, writable;
     ipaddress_ip_address := Bench.dotted_quad;
     quote_plus := λ s, s |}.

Definition start (E : External) (db : gmap (string * string) string) (s : @Srv E)
    : @world E :=
  @World E db s [].

(** A Sophos reply with the given direct children of its root. *)
Definition reply_with (status : Z) (children : list xml) : response :=
  {| status_code := status; body := Some (Element "Response" [] None children) |}.

(** An [IPHost] element with an address list and a status code. *)
Definition iphost (text code : string) : xml :=
  Element "IPHost" [] None
    [Element "ListOfIPAddresses" [] (Some text) [];
     Element "Status" [("code", code)] (Some "status text") []].

(** Two PAN endpoints: the first answers, the second cannot be reached. *)
Definition up : Pan.Firewall := {| Pan.url := "https://up.example"; Pan.api_key := "k1" |}.
Definition down : Pan.Firewall := {| Pan.url := "https://down.example"; Pan.api_key := "k2" |}.
Definition late : Pan.Firewall := {| Pan.url := "https://late.example"; Pan.api_key := "k3" |}.

Definition flaky_reply (r : request) : exn + response :=
  match r with
  | Post url _ _ =>
      if String.eqb url "https://down.example/api/" then inl RequestException
      else inr {| status_code := 200; body := None |}
  | Get _ _ => inl RequestException
  end.

Definition pan_of (fs : list Pan.Firewall) : Pan.Client :=
  {| Pan.name := "PAN Client";
     Pan.firewalls := fs;
     Pan.verify := true;
     Pan.internal_block_tag := "VectraInternal";
     Pan.external_block_tag := "VectraExternal" |}.

End Lab.

(** The message [_get_password] prompts with. *)
Definition prompt_text (system key : string) : string :=
  "Enter the " +:+ system +:+ " " +:+ key +:+ ": ".

(** Whether [_get_password] asks the operator: on a forced refresh and
    when the store has no entry. *)
Definition asks (update_keys : bool) (stored : option string) : bool :=
  update_keys || bool_decide (stored = None).

(** The secret [_get_password] comes to, given the store and the operator. *)
Definition resolved `{External} (system key : string) (update_keys : bool)
    (db : gmap (string * string) string) : option string :=
  if asks update_keys (db !! (system, key))
  then ask (prompt_text system key) else db !! (system, key).

(** The Sophos client the constructor builds from the configuration and
    the two resolved credentials. *)
Definition sophos_client (HOSTNAME PORT : string) (IS_ENCRYPTED : bool)
    (username password : option string) : Sophos.Client :=
  {| Sophos.name := "Sophos Client";
     Sophos.module := "sophos";
     Sophos.baseurl := "https://" +:+ HOSTNAME +:+ ":" +:+ PORT
                       +:+ "/webconsole/APIController?reqxml=";
     Sophos.login_xml := "<Login><Username>" +:+ str username
                         +:+ "</Username><Password passwordform=" +:+ dquote
                         +:+ (if IS_ENCRYPTED then "encrypted" else "plain") +:+ dquote
                         +:+ ">" +:+ str password +:+ "</Password></Login>" |}.

(** The login status [_login_check] reads in a reply: the text of
    [Login/status], which may be empty. *)
Definition login_status (r : response) : option (option string) :=
  root ← body r; login ← find "Login" root; status ← find "status" login;
  Some (xml_text status).

(** A run of a Sophos host verb that returns at most the IP of the host
    and sends at most the fetch and one push. *)
Definition within_bounds `{External} (BLOCK_LIST_NAME : string) (self : Sophos.Client)
    (host : VectraHost) (w : world) (run : outcome (list string) * world) : Prop :=
  (∀ l, run.1 = Return l → l = [] ∨ l = [host_ip host])
  ∧ ∃ sent,
      http_requests (trace run.2) = http_requests (trace w) ++ sent
      ∧ (sent = []
         ∨ sent = [Get (Sophos.fetch_url BLOCK_LIST_NAME self) false]
         ∨ ∃ ip_csv, sent = [Get (Sophos.fetch_url BLOCK_LIST_NAME self) false;
                             Get (Sophos.push_url BLOCK_LIST_NAME self ip_csv) false]).

(** The key [_get_api_token] reads in a keygen reply. *)
Definition keygen_token (r : response) : option string :=
  root ← body r;
  if decide (xml_tag root = "response") then
    result ← find "result" root; key ← find "key" result; xml_text key
  else None.

(** The keygen POST of an endpoint. *)
Definition keygen_post (pan_url : string) (data : list (string * option string)) : request :=
  Post (pan_url +:+ "/api/?type=keygen") data false.

(** * Properties *)

(** ** Strings and lists *)

Lemma append_cons (c : ascii) (s1 s2 : string) :
  String c s1 +:+ s2 = String c (s1 +:+ s2).
Proof. reflexivity. Qed.

Lemma append_assoc (s1 s2 s3 : string) : (s1 +:+ s2) +:+ s3 = s1 +:+ s2 +:+ s3.
Proof.
  induction s1 as [|c s1 IH]; [done |]. rewrite !append_cons. by f_equal.
Qed.













Lemma contains_true (x : string) (l : list string) : contains x l = true ↔ x ∈ l.
Proof. unfold contains. apply bool_decide_eq_true. Qed.

Lemma contains_false (x : string) (l : list string) : contains x l = false ↔ x ∉ l.
Proof. unfold contains. apply bool_decide_eq_false. Qed.


(** ** Running the monad *)

Section Running.
Context `{External}.

Lemma bind_run {A B} (m : M A) (k : A → M B) (w w' : world) (a : A) :
  m w = (Return a, w') → bind m k w = k a w'.
Proof. intros Hm. unfold bind. by rewrite Hm. Qed.

Lemma bind_raise {A B} (m : M A) (k : A → M B) (w w' : world) (e : exn) :
  m w = (Raise e, w') → bind m k w = (Raise e, w').
Proof. intros Hm. unfold bind. by rewrite Hm. Qed.

Lemma http_requests_app (t1 t2 : list event) :
  http_requests (t1 ++ t2) = http_requests t1 ++ http_requests t2.
Proof. apply omap_app. Qed.

Lemma prompts_app (t1 t2 : list event) :
  prompts (t1 ++ t2) = prompts t1 ++ prompts t2.
Proof. apply omap_app. Qed.

Lemma quiet_ret : quiet (ret []).
Proof. intros w. by exists w. Qed.

Lemma quiet_log (lvl : level) (msg : string) (args : list arg) :
  quiet (log lvl msg args ;;; ret []).
Proof.
  intros w. eexists. split; [reflexivity |]. simpl.
  rewrite http_requests_app, prompts_app. simpl. by rewrite !app_nil_r.
Qed.

End Running.

(** ** Method lookup and construction *)

(** The two address methods are found under their own names, and under
    these names only. *)
Lemma call_method_bound `{External} (self : Pan.Client) :
  Pan.call_method self "_register_address" = Pan._register_address self
  ∧ Pan.call_method self "_unregister_address" = Pan._unregister_address self
  ∧ (∀ firewall ips tag,
       Pan.call_method self "register_address" firewall ips tag
       = raise (AttributeError "register_address"))
  ∧ (∀ firewall ips tag,
       Pan.call_method self "unregister_address" firewall ips tag
       = raise (AttributeError "unregister_address")).
Proof. repeat split. Qed.

(** On the bench the Sophos constructor passes the login check, asks
    nothing, and gives the client of the scenarios. *)
Example sophos_bench_construction :
  (@Sophos.__init__ Bench.sophos_bench "fw.example" "4444" false (ModPair false false)
     (@World Bench.sophos_bench Bench.sophos_keyring "10.0.0.1" [])).1
    = Return Bench.sophos
  ∧ prompts (trace (@Sophos.__init__ Bench.sophos_bench "fw.example" "4444" false
      (ModPair false false)
      (@World Bench.sophos_bench Bench.sophos_keyring "10.0.0.1" [])).2) = [].
Proof. split; vm_compute; reflexivity. Qed.

(** ** Unsupported verbs *)

(** C10. Every unsupported verb (account, detection and static-IP verbs and
    host grooming on Sophos; account verbs and host grooming on PAN) returns
    the empty list and issues no HTTP call, for every input and in every
    world. *)
Theorem unsupported_verbs_quiet `{External} :
  (∀ self account, quiet (Sophos.block_account self account))
  ∧ (∀ self account, quiet (Sophos.unblock_account self account))
  ∧ (∀ self detection, quiet (Sophos.block_detection self detection))
  ∧ (∀ self detection, quiet (Sophos.unblock_detection self detection))
  ∧ (∀ self ips, quiet (Sophos.block_static_dst_ips self ips))
  ∧ (∀ self ips, quiet (Sophos.unblock_static_dst_ips self ips))
  ∧ (∀ self host, quiet (Sophos.groom_host self host))
  ∧ (∀ self account, quiet (Pan.block_account self account))
  ∧ (∀ self account, quiet (Pan.unblock_account self account))
  ∧ (∀ self host, quiet (Pan.groom_host self host)).
Proof.
  repeat split; intros;
    first [apply quiet_ret | apply quiet_log].
Qed.

(** ** Sophos: an input that is no IP address *)

(** C8. When the input is not a syntactically valid address, [block_host]
    and [unblock_host] return the empty list, raise nothing and leave the
    world as it was: no fetch, no push, not even a log line. *)
Theorem sophos_invalid_ip_dropped `{External} (BLOCK_LIST_NAME : string)
    (self : Sophos.Client) (host : VectraHost) (w : world) :
  ipaddress_ip_address (host_ip host) = false →
  Sophos.block_host BLOCK_LIST_NAME self host w = (Return [], w)
  ∧ Sophos.unblock_host BLOCK_LIST_NAME self host w = (Return [], w).
Proof.
  intros Hbad.
  unfold Sophos.block_host, Sophos.unblock_host, Sophos._block_ip,
    Sophos._unblock_ip, Sophos._validate_ip_address.
  by rewrite Hbad.
Qed.

Lemma sophos_invalid_ip_dropped_witness :
  Bench.dotted_quad "not-an-address" = false
  ∧ @Sophos.block_host Bench.sophos_bench Bench.BLOCK_LIST_NAME Bench.sophos
      (Bench.host "not-an-address") (Bench.sophos_world "10.0.0.1")
    = (Return [], Bench.sophos_world "10.0.0.1")
  ∧ @Sophos.unblock_host Bench.sophos_bench Bench.BLOCK_LIST_NAME Bench.sophos
      (Bench.host "not-an-address") (Bench.sophos_world "10.0.0.1")
    = (Return [], Bench.sophos_world "10.0.0.1").
Proof.
  split; [reflexivity |].
  apply (@sophos_invalid_ip_dropped Bench.sophos_bench). reflexivity.
Defined.

(** ** Credentials *)

Section Credentials.
Context `{External}.

(** A stored secret, empty or not, is returned without a prompt when no
    refresh is asked for. *)
Lemma get_password_stored (system key secret : string) (store_keys : bool) (w : world) :
  keyring_db w !! (system, key) = Some secret →
  (Common._get_password system key (ModPair store_keys false) w).1
    = Return (Some secret)
  ∧ prompts (trace (Common._get_password system key (ModPair store_keys false) w).2)
    = prompts (trace w).
Proof.
  intros Hdb.
  unfold Common._get_password, bind, keyring_get_password, try_except,
    keyring_set_password, print, emit, ret.
  rewrite Hdb. simpl.
  destruct store_keys; [|done].
  destruct (set_password_ok system key secret); simpl; [done |].
  rewrite prompts_app. simpl. by rewrite app_nil_r.
Qed.

(** An absent secret makes the resolver ask the operator. *)
Lemma get_password_absent (system key : string) (store_keys update_keys : bool) (w : world) :
  keyring_db w !! (system, key) = None →
  prompts (trace (Common._get_password system key (ModPair store_keys update_keys) w).2)
    = prompts (trace w) ++ ["Enter the " +:+ system +:+ " " +:+ key +:+ ": "].
Proof.
  intros Hdb.
  unfold Common._get_password, bind, keyring_get_password, try_except,
    keyring_set_password, print, emit, ret, questionary_password_ask.
  rewrite Hdb. rewrite orb_true_r. simpl.
  unfold bind, emit, ret. simpl.
  destruct store_keys; simpl; [| by rewrite prompts_app].
  destruct (ask _) as [p|]; simpl; [| by rewrite prompts_app].
  destruct (set_password_ok system key p); simpl; [by rewrite prompts_app |].
  rewrite !prompts_app. simpl. by rewrite app_nil_r.
Qed.

(** The wrapper of pan.py reads an empty entry as unset. *)
Lemma get_keyring_password_empty (system username : string) (w : world) :
  keyring_db w !! (system, username) = Some "" →
  Pan._get_keyring_password system username w = (Return None, w).
Proof.
  intros Hdb. unfold Pan._get_keyring_password, bind, keyring_get_password.
  by rewrite Hdb.
Qed.

End Credentials.

(** C6. The resolver [_get_password] does not read an empty stored secret
    as unset: with the Sophos user name stored as the empty string and no
    refresh asked for, it returns the empty string and asks nothing, while
    the wrapper [_get_keyring_password] of pan.py gives [None] on the same
    entry and an absent entry does make the resolver ask. *)
Theorem get_password_returns_empty_secret :
  @Common._get_password (Bench.pan_bench 200) "Sophos" "Username" (ModPair false false)
      (Bench.pan_world 200 Bench.emptied_keyring)
    = (Return (Some ""), Bench.pan_world 200 Bench.emptied_keyring)
  ∧ @Pan._get_keyring_password (Bench.pan_bench 200) "Sophos" "Username"
      (Bench.pan_world 200 Bench.emptied_keyring)
    = (Return None, Bench.pan_world 200 Bench.emptied_keyring)
  ∧ @Common._get_password (Bench.pan_bench 200) "Sophos" "Username" (ModPair false false)
      (Bench.pan_world 200 ∅)
    = (Return (Some "typed-by-operator"),
       @World (Bench.pan_bench 200) ∅ () [EvPrompt "Enter the Sophos Username: "]).
Proof. repeat split; vm_compute; reflexivity. Qed.

(** ** PAN: the session token *)

Section Inversion.
Context `{External}.

Lemma bind_inv {A B} (m : M A) (k : A → M B) (w w' : world) (b : B) :
  bind m k w = (Return b, w') →
  ∃ a w1, m w = (Return a, w1) ∧ k a w1 = (Return b, w').
Proof.
  unfold bind. destruct (m w) as [[a|e] w1]; [eauto | done].
Qed.

Lemma unwrap_inv {A} (o : option A) (e : exn) (w w' : world) (a : A) :
  unwrap o e w = (Return a, w') → o = Some a ∧ w' = w.
Proof. destruct o; simpl; unfold ret, raise; naive_solver. Qed.

Lemma send_inv (r : request) (w w' : world) (resp : response) :
  send r w = (Return resp, w') → trace w' = trace w ++ [EvHttp r].
Proof.
  unfold send. destruct (server r (fw w)) as [[e|resp'] s]; simpl; naive_solver.
Qed.

Lemma keyring_set_password_inv (system key secret : string) (w w' : world) :
  keyring_set_password system key secret w = (Return (), w') → trace w' = trace w.
Proof.
  unfold keyring_set_password.
  destruct (set_password_ok system key secret); naive_solver.
Qed.

Lemma get_password_grows (system key : string) (modify : modify_arg) (w : world) :
  trace w `prefix_of` trace (Common._get_password system key modify w).2.
Proof.
  unfold Common._get_password. destruct modify as [b|store_keys update_keys]; [done |].
  unfold bind, keyring_get_password, questionary_password_ask, try_except,
    keyring_set_password, print, emit, ret, bind.
  repeat (case_match; simplify_eq/=);
    try done; try (by eexists); try (by eexists; rewrite <- app_assoc).
Qed.

(** Whenever [_get_api_token] returns a token, its last act on the outside
    was the keygen login call, whatever the credential store held and
    whatever [modify] was. *)
Lemma get_api_token_logs_in (pan_url : string) (modify : modify_arg)
    (w w' : world) (token : string) :
  Pan._get_api_token pan_url modify w = (Return token, w') →
  ∃ mid data,
    trace w' = trace w ++ mid
               ++ [EvHttp (Post (pan_url +:+ "/api/?type=keygen") data false)].
Proof.
  unfold Pan._get_api_token. intros Hrun.
  apply bind_inv in Hrun as (api_token & w1 & Hkr & Hrun).
  apply bind_inv in Hrun as (payload & w2 & Hpay & Hrun).
  apply bind_inv in Hrun as (data & w3 & Hdata & Hrun).
  apply unwrap_inv in Hdata as [-> ->].
  apply bind_inv in Hrun as (r & w4 & Hpost & Hrun).
  apply send_inv in Hpost.
  apply bind_inv in Hrun as (key & w5 & Hkey & Hrun).
  apply bind_inv in Hrun as (key' & w6 & Hkey' & Hrun).
  apply unwrap_inv in Hkey' as [-> ->].
  apply bind_inv in Hrun as ([] & w7 & Hset & Hrun).
  apply keyring_set_password_inv in Hset. injection Hrun as -> ->.
  assert (w5 = w4) as ->.
  { unfold Pan.keygen_key in Hkey.
    apply bind_inv in Hkey as (root & v1 & Hroot & Hkey).
    apply unwrap_inv in Hroot as [_ ->].
    apply bind_inv in Hkey as ([] & v2 & Htag & Hkey).
    assert (v2 = w4) as ->.
    { destruct (decide _) in Htag; unfold ret, raise in Htag; by simplify_eq. }
    apply bind_inv in Hkey as (result & v3 & Hres & Hkey).
    apply unwrap_inv in Hres as [_ ->].
    apply bind_inv in Hkey as (k & v4 & Hk & Hkey).
    apply unwrap_inv in Hk as [_ ->]. unfold ret in Hkey. by simplify_eq. }
  assert (w1 = w) as ->.
  { unfold Pan._get_keyring_password, bind, keyring_get_password, ret in Hkr.
    by repeat (case_match; simplify_eq/=). }
  assert (trace w `prefix_of` trace w2) as [mid Hmid].
  { destruct (_ || _) in Hpay.
    - apply bind_inv in Hpay as (u & v1 & Hu & Hpay).
      apply bind_inv in Hpay as (p & v2 & Hp & Hpay).
      unfold ret in Hpay. simplify_eq.
      pose proof (get_password_grows pan_url "username" modify w) as H1.
      pose proof (get_password_grows pan_url "password" modify v1) as H2.
      rewrite Hu in H1. rewrite Hp in H2. simpl in *. by etrans.
    - unfold ret in Hpay. by simplify_eq. }
  exists mid, data. rewrite Hset, Hpost, Hmid. by rewrite <- app_assoc.
Qed.

End Inversion.

(** C3. A cached session token does not spare the login. With the token,
    the user name and the password of the endpoint all in the credential
    store and [modify] = (False, False), [_get_api_token] still issues the
    keygen POST and returns the token of the reply, not the cached one, and
    so does the constructor; with [modify] = False it raises before any
    call; with only the token in the store it prompts for both fields. *)
Theorem get_api_token_ignores_cached_token :
  (@Pan._get_api_token (Bench.pan_bench 200) Bench.pan_url (ModPair false false)
      (Bench.pan_world 200 Bench.full_keyring)).1 = Return "fresh-token"
  ∧ http_requests (trace (@Pan._get_api_token (Bench.pan_bench 200) Bench.pan_url
      (ModPair false false) (Bench.pan_world 200 Bench.full_keyring)).2)
    = [Post (Bench.pan_url +:+ "/api/?type=keygen")
         [("user", Some "admin"); ("password", Some "secret")] false]
  ∧ (@Pan.__init__ (Bench.pan_bench 200) [Bench.pan_url] false
      "VectraInternal" "VectraExternal" (ModPair false false)
      (Bench.pan_world 200 Bench.full_keyring)).1
    = Return {| Pan.name := "PAN Client";
                Pan.firewalls := [ {| Pan.url := Bench.pan_url;
                                      Pan.api_key := "fresh-token" |} ];
                Pan.verify := false;
                Pan.internal_block_tag := "VectraInternal";
                Pan.external_block_tag := "VectraExternal" |}
  ∧ (@Pan._get_api_token (Bench.pan_bench 200) Bench.pan_url (ModBool false)
      (Bench.pan_world 200 Bench.full_keyring)).1
    = Raise (UnboundLocalError "payload")
  ∧ prompts (trace (@Pan._get_api_token (Bench.pan_bench 200) Bench.pan_url
      (ModPair false false)
      (Bench.pan_world 200 {[ (Bench.pan_url, "API_Key") := "cached-token" ]})).2)
    = ["Enter the https://pan.example username: ";
       "Enter the https://pan.example password: "].
Proof. repeat split; vm_compute; reflexivity. Qed.

(** ** PAN: register and unregister *)

Section Register.
Context `{External}.

Lemma register_address_run (self : Pan.Client) (firewall : Pan.Firewall)
    (ips : list string) (tag : string) (w : world) (resp : response) (s : Srv) :
  server (address_post self firewall "register" ips tag) (fw w) = (inr resp, s) →
  ∃ w', Pan._register_address self firewall ips tag w
        = (Return (if bool_decide (status_code resp ∈ [200; 201]%Z) then ips else []), w').
Proof.
  intros Hsrv. unfold Pan._register_address, bind, requests_post, send.
  unfold address_post in Hsrv. rewrite Hsrv.
  destruct (bool_decide _); eexists; reflexivity.
Qed.

Lemma register_address_sends (self : Pan.Client) (firewall : Pan.Firewall)
    (ips : list string) (tag : string) (w : world) :
  http_requests (trace (Pan._register_address self firewall ips tag w).2)
  = http_requests (trace w) ++ [address_post self firewall "register" ips tag].
Proof.
  unfold Pan._register_address, bind, requests_post, send, address_post.
  destruct (server _ _) as [[e|resp] s]; simpl.
  - by rewrite http_requests_app.
  - destruct (bool_decide _); simpl;
      rewrite !http_requests_app; simpl; by rewrite app_nil_r.
Qed.

Lemma unregister_address_sends (self : Pan.Client) (firewall : Pan.Firewall)
    (ips : list string) (tag : string) (w : world) :
  http_requests (trace (Pan._unregister_address self firewall ips tag w).2)
  = http_requests (trace w) ++ [address_post self firewall "unregister" ips tag].
Proof.
  unfold Pan._unregister_address, bind, requests_post, send, address_post.
  destruct (server _ _) as [[e|resp] s]; simpl.
  - by rewrite http_requests_app.
  - destruct (bool_decide _); simpl;
      rewrite !http_requests_app; simpl; by rewrite app_nil_r.
Qed.

(** With a firewall list that is not empty, the four detection and
    static-IP verbs raise at the first endpoint, before any request. *)
Lemma external_verbs_raise (self : Pan.Client) (f : Pan.Firewall)
    (fs : list Pan.Firewall) (w : world) :
  Pan.firewalls self = f :: fs →
  (∀ d, Pan.block_detection self d w
        = (Raise (AttributeError "register_address"), w))
  ∧ (∀ d, (Pan.unblock_detection self d w).1
          = Raise (AttributeError "unregister_address")
          ∧ http_requests (trace (Pan.unblock_detection self d w).2)
            = http_requests (trace w))
  ∧ (∀ ips, (Pan.block_static_dst_ips self ips w).1
            = Raise (AttributeError "register_address")
            ∧ http_requests (trace (Pan.block_static_dst_ips self ips w).2)
              = http_requests (trace w))
  ∧ (∀ ips, (Pan.unblock_static_dst_ips self ips w).1
            = Raise (AttributeError "unregister_address")
            ∧ http_requests (trace (Pan.unblock_static_dst_ips self ips w).2)
              = http_requests (trace w)).
Proof.
  intros Hf.
  unfold Pan.block_detection, Pan.unblock_detection, Pan.block_static_dst_ips,
    Pan.unblock_static_dst_ips.
  rewrite Hf. split; [done |].
  split; [| split]; intros; (split; [try case_bool_decide; done |]);
    try case_bool_decide; simpl; rewrite ?http_requests_app; simpl;
    by rewrite ?app_nil_r.
Qed.

(** When every register call is answered, the loop over the endpoints
    ends normally, whatever the answers are. *)
Lemma register_loop_returns (self : Pan.Client) (ips : list string) (tag : string)
    (fs : list Pan.Firewall) (w : world) :
  (∀ firewall s, firewall ∈ fs →
     ∃ resp s', server (address_post self firewall "register" ips tag) s = (inr resp, s')) →
  ∃ w', for_each fs (λ firewall,
          Pan.call_method self "_register_address" firewall ips tag) w
        = (Return (), w').
Proof.
  revert w. induction fs as [|f fs IH]; intros w Hsrv; simpl.
  - by eexists.
  - destruct (Hsrv f (fw w)) as (resp & s & Hs); [by left |].
    destruct (register_address_run self f ips tag w resp s Hs) as [w1 Hrun].
    change (Pan.call_method self "_register_address" f ips tag)
      with (Pan._register_address self f ips tag).
    rewrite (bind_run _ _ _ _ _ Hrun). apply IH.
    intros f' s' Hf'. apply Hsrv. by right.
Qed.

End Register.

(** C2. [block_detection], [unblock_detection], [block_static_dst_ips] and
    [unblock_static_dst_ips] call [self.register_address] and
    [self.unregister_address], names that are bound nowhere: with one
    endpoint configured each of them raises [AttributeError] to the caller
    and no POST is issued, while [block_host] on the same client registers
    through [_register_address]. *)
Theorem pan_external_verbs_raise :
  @Pan.block_detection (Bench.pan_bench 200) Bench.pan (Bench.detection ["1.2.3.4"])
      (Bench.pan_world 200 ∅)
    = (Raise (AttributeError "register_address"), Bench.pan_world 200 ∅)
  ∧ (@Pan.unblock_detection (Bench.pan_bench 200) Bench.pan
       {| detection_id := 7; detection_dst_ips := ["1.2.3.4"];
          detection_blocked_elements := {[ "PAN Client" := ["1.2.3.4"] ]} |}
       (Bench.pan_world 200 ∅))
    = (Raise (AttributeError "unregister_address"), Bench.pan_world 200 ∅)
  ∧ (@Pan.block_static_dst_ips (Bench.pan_bench 200) Bench.pan
       {| static_dst_ips := ["1.2.3.4"] |} (Bench.pan_world 200 ∅)).1
    = Raise (AttributeError "register_address")
  ∧ http_requests (trace (@Pan.block_static_dst_ips (Bench.pan_bench 200) Bench.pan
       {| static_dst_ips := ["1.2.3.4"] |} (Bench.pan_world 200 ∅)).2) = []
  ∧ (@Pan.unblock_static_dst_ips (Bench.pan_bench 200) Bench.pan
       {| static_dst_ips := ["1.2.3.4"] |} (Bench.pan_world 200 ∅)).1
    = Raise (AttributeError "unregister_address")
  ∧ http_requests (trace (@Pan.unblock_static_dst_ips (Bench.pan_bench 200) Bench.pan
       {| static_dst_ips := ["1.2.3.4"] |} (Bench.pan_world 200 ∅)).2) = []
  ∧ http_requests (trace (@Pan.block_host (Bench.pan_bench 200) Bench.pan
       (Bench.host "1.2.3.4") (Bench.pan_world 200 ∅)).2)
    = [address_post Bench.pan {| Pan.url := Bench.pan_url; Pan.api_key := "cached-token" |}
         "register" ["1.2.3.4"] "VectraInternal"].
Proof. repeat split; vm_compute; reflexivity. Qed.

(** C5, as the code has it. [_register_address] gives the empty list when
    the status is neither 200 nor 201, but [block_host] drops that value:
    when the register call to each endpoint is answered, with whatever
    status, [block_host] returns the list of the one IP it was given. *)
Theorem pan_block_host_returns_input `{External} (self : Pan.Client)
    (host : VectraHost) (w : world) :
  (∀ firewall s, firewall ∈ Pan.firewalls self →
     ∃ resp s',
       server (address_post self firewall "register" [host_ip host]
                 (Pan.internal_block_tag self)) s = (inr resp, s')) →
  (∃ w', Pan.block_host self host w = (Return [host_ip host], w'))
  ∧ (∀ firewall ips tag resp s,
       server (address_post self firewall "register" ips tag) (fw w) = (inr resp, s) →
       status_code resp ∉ [200; 201]%Z →
       (Pan._register_address self firewall ips tag w).1 = Return []).
Proof.
  intros Hsrv. split.
  - unfold Pan.block_host.
    destruct (register_loop_returns self [host_ip host] (Pan.internal_block_tag self)
                (Pan.firewalls self) w Hsrv) as [w' Hloop].
    exists w'. by rewrite (bind_run _ _ _ _ _ Hloop).
  - intros firewall ips tag resp s Hs Hstatus.
    destruct (register_address_run self firewall ips tag w resp s Hs) as [w' ->].
    simpl. by rewrite bool_decide_eq_false_2.
Qed.

Lemma pan_block_host_returns_input_witness :
  (∃ w', @Pan.block_host (Bench.pan_bench 500) Bench.pan (Bench.host "10.0.0.5")
           (Bench.pan_world 500 ∅) = (Return ["10.0.0.5"], w'))
  ∧ (∀ firewall ips tag resp s,
       @server (Bench.pan_bench 500) (address_post Bench.pan firewall "register" ips tag) ()
         = (inr resp, s) →
       status_code resp ∉ [200; 201]%Z →
       (@Pan._register_address (Bench.pan_bench 500) Bench.pan firewall ips tag
          (Bench.pan_world 500 ∅)).1 = Return []).
Proof.
  apply (@pan_block_host_returns_input (Bench.pan_bench 500) Bench.pan
           (Bench.host "10.0.0.5") (Bench.pan_world 500 ∅)).
  intros firewall s Hin. apply list_elem_of_singleton in Hin as ->.
  eexists _, _. reflexivity.
Defined.

(** C5, as the claim has it, fails: the register call is answered with
    status 500 and [block_host] still returns the IP. *)
Lemma pan_block_host_status_500 :
  @server (Bench.pan_bench 500)
      (address_post Bench.pan {| Pan.url := Bench.pan_url; Pan.api_key := "cached-token" |}
         "register" ["10.0.0.5"] "VectraInternal") ()
    = (inr {| status_code := 500; body := None |}, ())
  ∧ (@Pan.block_host (Bench.pan_bench 500) Bench.pan (Bench.host "10.0.0.5")
       (Bench.pan_world 500 ∅)).1 = Return ["10.0.0.5"]
  ∧ (@Pan.block_host (Bench.pan_bench 500) Bench.pan (Bench.host "10.0.0.5")
       (Bench.pan_world 500 ∅)).1 ≠ Return [].
Proof. repeat split; [vm_compute; reflexivity .. | vm_compute; discriminate]. Qed.

(** ** PAN: the batched command *)

Lemma append_nil_l (s : string) : "" +:+ s = s.
Proof. reflexivity. Qed.














(** ** Sophos: fetching and pushing the list *)

Section SophosRun.
Context `{External}.
Variable BLOCK_LIST_NAME : string.
Variable self : Sophos.Client.

#[local] Abbreviation fetch := (Get (Sophos.fetch_url BLOCK_LIST_NAME self) false).
#[local] Abbreviation push ip_csv := (Get (Sophos.push_url BLOCK_LIST_NAME self ip_csv) false).

Lemma after_trans (w w1 w2 : world) (l1 l2 : list request) (s1 s2 : Srv) :
  after w l1 s1 w1 → after w1 l2 s2 w2 → after w (l1 ++ l2) s2 w2.
Proof.
  intros (Ht1 & _ & Hk1) (Ht2 & Hs2 & Hk2). unfold after.
  rewrite Ht2, Ht1, Hk2, Hk1, app_assoc. done.
Qed.

Lemma make_api_call_ok (request_xml : string) (w : world) (r : response) (s : Srv) :
  server (Get (Sophos.api_url self request_xml) false) (fw w) = (inr r, s) →
  Sophos.http_ok r = true →
  ∃ w', Sophos._make_api_call self request_xml w = (Return r, w')
        ∧ after w [Get (Sophos.api_url self request_xml) false] s w'.
Proof.
  intros Hsrv Hok.
  unfold Sophos._make_api_call, bind, log, emit, requests_get, send, raise_for_status.
  simpl. unfold Sophos.api_url in Hsrv. rewrite Hsrv.
  unfold Sophos.http_ok in Hok. apply negb_true_iff in Hok. rewrite Hok.
  eexists. split; [reflexivity |]. unfold after. simpl.
  rewrite !http_requests_app. simpl. by rewrite app_nil_r.
Qed.

Lemma make_api_call_sends (request_xml : string) (w : world) :
  http_requests (trace (Sophos._make_api_call self request_xml w).2)
  = http_requests (trace w) ++ [Get (Sophos.api_url self request_xml) false].
Proof.
  unfold Sophos._make_api_call, bind, log, emit, requests_get, send, raise_for_status,
    Sophos.api_url.
  simpl. destruct (server _ _) as [[e|r] s]; simpl;
    [| destruct (bool_decide _); simpl];
    rewrite !http_requests_app; simpl; by rewrite app_nil_r.
Qed.

Lemma get_blocked_ips_ok (w : world) (r : response) (s : Srv) (text : string) :
  server fetch (fw w) = (inr r, s) →
  Sophos.http_ok r = true →
  Sophos.listed_text r = Some text →
  ∃ w', Sophos._get_blocked_ips BLOCK_LIST_NAME self w = (Return (split "," text), w')
        ∧ after w [fetch] s w'.
Proof.
  intros Hsrv Hok Htext.
  destruct (make_api_call_ok _ w r s Hsrv Hok) as (w1 & Hcall & Hw1).
  unfold Sophos._get_blocked_ips. rewrite (bind_run _ _ _ _ _ Hcall).
  unfold Sophos.listed_text in Htext.
  destruct (body r) as [root|] eqn:Hbody; [|done]. simpl in Htext.
  destruct (findall "IPHost" root) as [|first rest] eqn:Hall; [done |]. simpl in Htext.
  destruct (find "ListOfIPAddresses" first) as [addresses|] eqn:Haddr; [|done].
  simpl in Htext.
  unfold Sophos.fromstring, bind, unwrap, ret, log, emit. rewrite Hbody, Hall. simpl.
  rewrite Haddr, Htext. simpl.
  destruct Hw1 as (Ht & Hs & Hk).
  destruct rest as [|second rest]; simpl;
    (eexists; split; [reflexivity |]); unfold after; simpl;
    rewrite !http_requests_app, Ht; simpl; by rewrite !app_nil_r.
Qed.

Lemma update_blocked_ips_ok (ips : list string) (w : world) (r : response) (s : Srv)
    (code : string) :
  server (push (join "," ips)) (fw w) = (inr r, s) →
  Sophos.http_ok r = true →
  Sophos.push_status r = Some code →
  ∃ w', Sophos._update_blocked_ips BLOCK_LIST_NAME self ips w
        = (Return (bool_decide (code = "200")), w')
        ∧ after w [push (join "," ips)] s w'.
Proof.
  intros Hsrv Hok Hcode.
  destruct (make_api_call_ok _ w r s Hsrv Hok) as (w1 & Hcall & Hw1).
  unfold Sophos._update_blocked_ips. rewrite (bind_run _ _ _ _ _ Hcall).
  unfold Sophos.push_status in Hcode.
  destruct (body r) as [root|] eqn:Hbody; [|done]. simpl in Hcode.
  destruct (find "IPHost" root) as [iphost|] eqn:Hhost; [|done]. simpl in Hcode.
  destruct (find "Status" iphost) as [status|] eqn:Hstatus; [|done]. simpl in Hcode.
  unfold Sophos.fromstring, bind, unwrap, ret, log, emit. rewrite Hbody, Hhost, Hstatus, Hcode.
  destruct Hw1 as (Ht & Hs & Hk).
  destruct (decide (code = "200")) as [->|Hne].
  - simpl. eexists. split; [reflexivity |]. done.
  - rewrite (bool_decide_eq_true_2 (code ≠ "200")) by done.
    rewrite (bool_decide_eq_false_2 (code = "200")) by done.
    eexists. split; [reflexivity |]. unfold after. simpl.
    rewrite http_requests_app, Ht. simpl. by rewrite app_nil_r.
Qed.

(** The push is sent whatever the firewall answers. *)
Lemma update_blocked_ips_sends (ips : list string) (w : world) :
  http_requests (trace (Sophos._update_blocked_ips BLOCK_LIST_NAME self ips w).2)
  = http_requests (trace w) ++ [push (join "," ips)].
Proof.
  pose proof (make_api_call_sends (Sophos.set_xml BLOCK_LIST_NAME (join "," ips)) w) as Hsend.
  unfold Sophos._update_blocked_ips, bind.
  destruct (Sophos._make_api_call _ _ w) as [[r|e] w1]; simpl in *; [|done].
  unfold Sophos.fromstring, unwrap, bind, ret, raise, log, emit.
  repeat (case_match; simplify_eq/=);
    rewrite ?http_requests_app, Hsend; simpl; by rewrite ?app_nil_r.
Qed.

End SophosRun.

(** ** Sophos: blocking and unblocking *)

Section SophosBlock.
Context `{External}.
Variable BLOCK_LIST_NAME : string.
Variable self : Sophos.Client.

#[local] Abbreviation fetch := (Get (Sophos.fetch_url BLOCK_LIST_NAME self) false).
#[local] Abbreviation push ip_csv := (Get (Sophos.push_url BLOCK_LIST_NAME self ip_csv) false).

(** An address that is already listed: the list is fetched and nothing
    else happens. *)
Lemma block_ip_present (ip text : string) (w : world) (r : response) (s : Srv) :
  ipaddress_ip_address ip = true →
  server fetch (fw w) = (inr r, s) →
  Sophos.http_ok r = true →
  Sophos.listed_text r = Some text →
  ip ∈ split "," text →
  ∃ w', Sophos._block_ip BLOCK_LIST_NAME self ip w = (Return [], w')
        ∧ after w [fetch] s w'.
Proof.
  intros Hvalid Hsrv Hok Htext Hin.
  destruct (get_blocked_ips_ok BLOCK_LIST_NAME self w r s text Hsrv Hok Htext)
    as (w1 & Hget & Hw1).
  unfold Sophos._block_ip, Sophos._validate_ip_address. rewrite Hvalid.
  rewrite (bind_run _ _ _ _ _ Hget).
  rewrite (proj2 (contains_true _ _) Hin). simpl. by exists w1.
Qed.

(** An address that is not listed yet and a push that succeeds. *)
Lemma block_ip_fresh (ip text : string) (w : world) (r1 r2 : response) (s1 s2 : Srv) :
  ipaddress_ip_address ip = true →
  server fetch (fw w) = (inr r1, s1) →
  Sophos.http_ok r1 = true →
  Sophos.listed_text r1 = Some text →
  ip ∉ split "," text →
  server (push (join "," (split "," text ++ [ip]))) s1 = (inr r2, s2) →
  Sophos.http_ok r2 = true →
  Sophos.push_status r2 = Some "200" →
  ∃ w', Sophos._block_ip BLOCK_LIST_NAME self ip w = (Return [ip], w')
        ∧ after w [fetch; push (join "," (split "," text ++ [ip]))] s2 w'.
Proof.
  intros Hvalid Hsrv1 Hok1 Htext Hnotin Hsrv2 Hok2 Hcode.
  destruct (get_blocked_ips_ok BLOCK_LIST_NAME self w r1 s1 text Hsrv1 Hok1 Htext)
    as (w1 & Hget & Hw1).
  pose proof Hw1 as (_ & Hfw1 & _). rewrite <- Hfw1 in Hsrv2.
  destruct (update_blocked_ips_ok BLOCK_LIST_NAME self _ w1 r2 s2 "200" Hsrv2 Hok2 Hcode)
    as (w2 & Hput & Hw2).
  unfold Sophos._block_ip, Sophos._validate_ip_address. rewrite Hvalid.
  rewrite (bind_run _ _ _ _ _ Hget).
  rewrite (proj2 (contains_false _ _) Hnotin). simpl.
  rewrite (bind_run _ _ _ _ _ Hput). simpl.
  exists w2. split; [done |]. by apply (after_trans w w1 w2 [_] [_] s1 s2).
Qed.

(** A listed address and a push that succeeds. *)
Lemma unblock_ip_present (ip text : string) (rest : list string) (w : world)
    (r1 r2 : response) (s1 s2 : Srv) :
  ipaddress_ip_address ip = true →
  server fetch (fw w) = (inr r1, s1) →
  Sophos.http_ok r1 = true →
  Sophos.listed_text r1 = Some text →
  remove ip (split "," text) = Some rest →
  server (push (join "," rest)) s1 = (inr r2, s2) →
  Sophos.http_ok r2 = true →
  Sophos.push_status r2 = Some "200" →
  ∃ w', Sophos._unblock_ip BLOCK_LIST_NAME self ip w = (Return [ip], w')
        ∧ after w [fetch; push (join "," rest)] s2 w'.
Proof.
  intros Hvalid Hsrv1 Hok1 Htext Hrem Hsrv2 Hok2 Hcode.
  destruct (get_blocked_ips_ok BLOCK_LIST_NAME self w r1 s1 text Hsrv1 Hok1 Htext)
    as (w1 & Hget & Hw1).
  pose proof Hw1 as (_ & Hfw1 & _). rewrite <- Hfw1 in Hsrv2.
  destruct (update_blocked_ips_ok BLOCK_LIST_NAME self _ w1 r2 s2 "200" Hsrv2 Hok2 Hcode)
    as (w2 & Hput & Hw2).
  assert (ip ∈ split "," text) as Hin.
  { clear -Hrem. revert rest Hrem. induction (split "," text) as [|y l IH]; [done |].
    simpl. intros rest. case_decide; [subst; left |].
    destruct (remove ip l); [|done]. intros _. right. by eapply IH. }
  unfold Sophos._unblock_ip, Sophos._validate_ip_address. rewrite Hvalid.
  rewrite (bind_run _ _ _ _ _ Hget).
  rewrite (proj2 (contains_true _ _) Hin), Hrem. simpl.
  change (bind (ret rest) ?k w1) with (k rest w1). simpl.
  rewrite (bind_run _ _ _ _ _ Hput). simpl.
  exists w2. split; [done |]. by apply (after_trans w w1 w2 [_] [_] s1 s2).
Qed.

End SophosBlock.

(** C1, as the code has it. Blocking a valid address that the fetched list
    already holds sends the fetch and no push, so no list with the address
    twice is ever pushed, and returns the empty list. *)
Theorem sophos_block_host_present `{External} (BLOCK_LIST_NAME : string)
    (self : Sophos.Client) (host : VectraHost) (text : string)
    (w : world) (r : response) (s : Srv) :
  ipaddress_ip_address (host_ip host) = true →
  server (Get (Sophos.fetch_url BLOCK_LIST_NAME self) false) (fw w) = (inr r, s) →
  Sophos.http_ok r = true →
  Sophos.listed_text r = Some text →
  host_ip host ∈ split "," text →
  ∃ w', Sophos.block_host BLOCK_LIST_NAME self host w = (Return [], w')
        ∧ after w [Get (Sophos.fetch_url BLOCK_LIST_NAME self) false] s w'.
Proof. intros. by eapply block_ip_present. Qed.

(** The push as it goes over the wire: the address field stands between
    the tags of [ListOfIPAddresses]. *)
Lemma push_url_wire `{External} (BLOCK_LIST_NAME : string) (self : Sophos.Client)
    (ip_csv : string) :
  Sophos.push_url BLOCK_LIST_NAME self ip_csv
  = Sophos.baseurl self
    +:+ quote_plus
          ("<Request>" +:+ Sophos.login_xml self
           +:+ "<Set operation=" +:+ dquote +:+ "update" +:+ dquote
           +:+ "><IPHost><Name>" +:+ BLOCK_LIST_NAME
           +:+ "</Name><IPFamily>IPv4</IPFamily><HostType>IPList</HostType><ListOfIPAddresses>"
           +:+ ip_csv +:+ "</ListOfIPAddresses></IPHost></Set></Request>").
Proof.
  unfold Sophos.push_url, Sophos.api_url, Sophos.set_xml.
  do 3 f_equal. rewrite !append_assoc. reflexivity.
Qed.



(** C9. The list holds 10.0.0.1,10.0.0.2 and 10.0.0.3 is blocked: the
    fetch is followed by one push, the request whose [Set] fragment has
    10.0.0.1,10.0.0.2,10.0.0.3 as the text of [ListOfIPAddresses], whatever
    the firewall then answers, and when the push succeeds (HTTP status
    accepted, status code 200 in the reply) the call returns the list of
    10.0.0.3. *)
Theorem sophos_block_host_appends `{External} (BLOCK_LIST_NAME : string)
    (self : Sophos.Client) (host : VectraHost) (w : world) (r : response) (s : Srv) :
  host_ip host = "10.0.0.3" →
  ipaddress_ip_address "10.0.0.3" = true →
  server (Get (Sophos.fetch_url BLOCK_LIST_NAME self) false) (fw w) = (inr r, s) →
  Sophos.http_ok r = true →
  Sophos.listed_text r = Some "10.0.0.1,10.0.0.2" →
  http_requests (trace (Sophos.block_host BLOCK_LIST_NAME self host w).2)
    = http_requests (trace w)
      ++ [Get (Sophos.fetch_url BLOCK_LIST_NAME self) false;
          Get (Sophos.baseurl self
               +:+ quote_plus
                     ("<Request>" +:+ Sophos.login_xml self
                      +:+ "<Set operation=" +:+ dquote +:+ "update" +:+ dquote
                      +:+ "><IPHost><Name>" +:+ BLOCK_LIST_NAME
                      +:+ "</Name><IPFamily>IPv4</IPFamily><HostType>IPList</HostType><ListOfIPAddresses>10.0.0.1,10.0.0.2,10.0.0.3</ListOfIPAddresses></IPHost></Set></Request>"))
            false]
  ∧ (∀ r2 s2,
       server
         (Get (Sophos.baseurl self
               +:+ quote_plus
                     ("<Request>" +:+ Sophos.login_xml self
                      +:+ "<Set operation=" +:+ dquote +:+ "update" +:+ dquote
                      +:+ "><IPHost><Name>" +:+ BLOCK_LIST_NAME
                      +:+ "</Name><IPFamily>IPv4</IPFamily><HostType>IPList</HostType><ListOfIPAddresses>10.0.0.1,10.0.0.2,10.0.0.3</ListOfIPAddresses></IPHost></Set></Request>"))
            false) s = (inr r2, s2) →
       Sophos.http_ok r2 = true →
       Sophos.push_status r2 = Some "200" →
       (Sophos.block_host BLOCK_LIST_NAME self host w).1 = Return ["10.0.0.3"]).
Proof.
  intros Hip Hvalid Hsrv Hok Htext.
  change (Sophos.baseurl self
          +:+ quote_plus
                ("<Request>" +:+ Sophos.login_xml self
                 +:+ "<Set operation=" +:+ dquote +:+ "update" +:+ dquote
                 +:+ "><IPHost><Name>" +:+ BLOCK_LIST_NAME
                 +:+ "</Name><IPFamily>IPv4</IPFamily><HostType>IPList</HostType><ListOfIPAddresses>10.0.0.1,10.0.0.2,10.0.0.3</ListOfIPAddresses></IPHost></Set></Request>"))
    with (Sophos.baseurl self
          +:+ quote_plus
                ("<Request>" +:+ Sophos.login_xml self
                 +:+ "<Set operation=" +:+ dquote +:+ "update" +:+ dquote
                 +:+ "><IPHost><Name>" +:+ BLOCK_LIST_NAME
                 +:+ "</Name><IPFamily>IPv4</IPFamily><HostType>IPList</HostType><ListOfIPAddresses>"
                 +:+ "10.0.0.1,10.0.0.2,10.0.0.3"
                 +:+ "</ListOfIPAddresses></IPHost></Set></Request>")).
  rewrite <- (push_url_wire BLOCK_LIST_NAME self "10.0.0.1,10.0.0.2,10.0.0.3").
  split.
  - destruct (get_blocked_ips_ok BLOCK_LIST_NAME self w r s _ Hsrv Hok Htext)
      as (w1 & Hget & Ht1 & _).
    unfold Sophos.block_host, Sophos._block_ip, Sophos._validate_ip_address.
    rewrite Hip, Hvalid, (bind_run _ _ _ _ _ Hget).
    change (negb (contains "10.0.0.3" (split "," "10.0.0.1,10.0.0.2"))) with true.
    cbv iota.
    pose proof (update_blocked_ips_sends BLOCK_LIST_NAME self
                  (split "," "10.0.0.1,10.0.0.2" ++ ["10.0.0.3"]) w1) as Hsend.
    unfold bind at 1.
    destruct (Sophos._update_blocked_ips _ _ _ w1) as [[[]|e] w2]; simpl in *;
      rewrite Hsend, Ht1, <- app_assoc; reflexivity.
  - intros r2 s2 Hsrv2 Hok2 Hcode.
    destruct (block_ip_fresh BLOCK_LIST_NAME self "10.0.0.3" _ w r r2 s s2
                Hvalid Hsrv Hok Htext) as (w' & Hrun & _); try done.
    + apply contains_false. by vm_compute.
    + unfold Sophos.block_host. rewrite Hip, Hrun. done.
Qed.


(** ** The Sophos bench keeps the list it is sent *)








(** ** The Sophos scenarios on the bench *)

Lemma sophos_block_host_present_witness :
  ∃ w', @Sophos.block_host Bench.sophos_bench Bench.BLOCK_LIST_NAME Bench.sophos
          (Bench.host "10.0.0.1") (Bench.sophos_world "10.0.0.1,10.0.0.2")
        = (Return [], w')
        ∧ after (Bench.sophos_world "10.0.0.1,10.0.0.2")
            [Get (@Sophos.fetch_url Bench.sophos_bench Bench.BLOCK_LIST_NAME Bench.sophos)
               false]
            ("10.0.0.1,10.0.0.2" : @Srv Bench.sophos_bench) w'.
Proof.
  apply (@sophos_block_host_present Bench.sophos_bench Bench.BLOCK_LIST_NAME Bench.sophos
           (Bench.host "10.0.0.1") "10.0.0.1,10.0.0.2"
           (Bench.sophos_world "10.0.0.1,10.0.0.2")
           (Bench.fetch_reply "10.0.0.1,10.0.0.2")).
  - reflexivity.
  - reflexivity.
  - reflexivity.
  - reflexivity.
  - apply contains_true. reflexivity.
Defined.

(** C1, as the claim has it, fails: 10.0.0.1 is valid and in the fetched
    list, and blocking it returns the empty list, not the address. *)
Lemma sophos_block_host_present_returns_nothing :
  Bench.dotted_quad "10.0.0.1" = true
  ∧ contains "10.0.0.1" (split "," "10.0.0.1,10.0.0.2") = true
  ∧ (@Sophos.block_host Bench.sophos_bench Bench.BLOCK_LIST_NAME Bench.sophos
       (Bench.host "10.0.0.1") (Bench.sophos_world "10.0.0.1,10.0.0.2")).1
    = Return []
  ∧ (@Sophos.block_host Bench.sophos_bench Bench.BLOCK_LIST_NAME Bench.sophos
       (Bench.host "10.0.0.1") (Bench.sophos_world "10.0.0.1,10.0.0.2")).1
    ≠ Return ["10.0.0.1"].
Proof. repeat split; [vm_compute; reflexivity .. | vm_compute; discriminate]. Qed.

Lemma sophos_block_host_appends_witness :
  http_requests (trace (@Sophos.block_host Bench.sophos_bench Bench.BLOCK_LIST_NAME
      Bench.sophos (Bench.host "10.0.0.3") (Bench.sophos_world "10.0.0.1,10.0.0.2")).2)
    = [Get ("https://fw.example:4444/webconsole/APIController?reqxml="
            +:+ "<Request><Login><Username>admin</Username><Password passwordform="
            +:+ dquote +:+ "plain" +:+ dquote +:+ ">secret</Password></Login>"
            +:+ "<Get><IPHost><Filter><key name=" +:+ dquote +:+ "Name" +:+ dquote
            +:+ " criteria=" +:+ dquote +:+ "=" +:+ dquote
            +:+ ">VectraBlocklist</key></Filter></IPHost></Get></Request>") false;
       Get ("https://fw.example:4444/webconsole/APIController?reqxml="
            +:+ "<Request><Login><Username>admin</Username><Password passwordform="
            +:+ dquote +:+ "plain" +:+ dquote +:+ ">secret</Password></Login>"
            +:+ "<Set operation=" +:+ dquote +:+ "update" +:+ dquote
            +:+ "><IPHost><Name>VectraBlocklist</Name><IPFamily>IPv4</IPFamily><HostType>IPList</HostType><ListOfIPAddresses>10.0.0.1,10.0.0.2,10.0.0.3</ListOfIPAddresses></IPHost></Set></Request>")
         false]
  ∧ (@Sophos.block_host Bench.sophos_bench Bench.BLOCK_LIST_NAME Bench.sophos
       (Bench.host "10.0.0.3") (Bench.sophos_world "10.0.0.1,10.0.0.2")).1
    = Return ["10.0.0.3"].
Proof.
  destruct (@sophos_block_host_appends Bench.sophos_bench Bench.BLOCK_LIST_NAME
              Bench.sophos (Bench.host "10.0.0.3")
              (Bench.sophos_world "10.0.0.1,10.0.0.2")
              (Bench.fetch_reply "10.0.0.1,10.0.0.2") "10.0.0.1,10.0.0.2"
              eq_refl eq_refl eq_refl eq_refl eq_refl) as [Hsent Hreturned].
  split; [exact Hsent |].
  apply (Hreturned Bench.push_reply "10.0.0.1,10.0.0.2,10.0.0.3");
    [vm_compute; reflexivity | reflexivity | reflexivity].
Defined.



(** * Further properties *)

(** ** The credential resolver *)

Section Resolver.
Context `{External}.

(** What [_get_password] returns and what it leaves behind, in full. *)
Lemma get_password_run (system key : string) (store_keys update_keys : bool)
    (db : gmap (string * string) string) (s : Srv) (t : list event) :
  Common._get_password system key (ModPair store_keys update_keys) (World db s t)
  = (Return (if asks update_keys (db !! (system, key))
             then ask (prompt_text system key) else db !! (system, key)),
     match (if asks update_keys (db !! (system, key))
            then ask (prompt_text system key) else db !! (system, key)) with
     | Some p =>
         if store_keys then
           if set_password_ok system key p
           then World (<[(system, key) := p]> db) s
                  (if asks update_keys (db !! (system, key))
                   then t ++ [EvPrompt (prompt_text system key)] else t)
           else World db s
                  ((if asks update_keys (db !! (system, key))
                    then t ++ [EvPrompt (prompt_text system key)] else t)
                   ++ [EvPrint "Failed to store password"])
         else World db s
                (if asks update_keys (db !! (system, key))
                 then t ++ [EvPrompt (prompt_text system key)] else t)
     | None => World db s
                 (if asks update_keys (db !! (system, key))
                  then t ++ [EvPrompt (prompt_text system key)] else t)
     end).
Proof.
  unfold Common._get_password, bind, keyring_get_password, questionary_password_ask,
    try_except, keyring_set_password, print, emit, ret, bind, prompt_text, asks. simpl.
  destruct (update_keys || bool_decide (db !! (system, key) = None)); simpl.
  - destruct (ask _) as [p|]; [| by destruct store_keys].
    destruct store_keys; [|done]. by destruct (set_password_ok system key p).
  - destruct (db !! (system, key)) as [p|]; [| by destruct store_keys].
    destruct store_keys; [|done]. by destruct (set_password_ok system key p).
Qed.

End Resolver.

(** X1. A forced refresh ([update_keys] set) always asks the operator, once,
    and returns the answer, whatever the credential store holds. *)
Theorem get_password_refresh_asks `{External} (system key : string) (store_keys : bool)
    (w : world) :
  (Common._get_password system key (ModPair store_keys true) w).1
    = Return (ask (prompt_text system key))
  ∧ prompts (trace (Common._get_password system key (ModPair store_keys true) w).2)
    = prompts (trace w) ++ [prompt_text system key].
Proof.
  destruct w as [db s t]. rewrite get_password_run. unfold asks. simpl. split; [done |].
  destruct (ask _) as [p|]; [destruct store_keys; [destruct (set_password_ok _ _ _) |] |];
    simpl; rewrite !prompts_app; simpl; by rewrite ?app_nil_r.
Qed.

(** X2. A secret that was asked for and stored is found again: when the
    operator answers [p] and the store takes the write, a later call
    without refresh returns [p], asks nothing and changes nothing. *)
Theorem get_password_store_then_read `{External} (system key p : string)
    (update_keys : bool) (w : world) :
  update_keys = true ∨ keyring_db w !! (system, key) = None →
  ask (prompt_text system key) = Some p →
  set_password_ok system key p = true →
  Common._get_password system key (ModPair false false)
    (Common._get_password system key (ModPair true update_keys) w).2
  = (Return (Some p), (Common._get_password system key (ModPair true update_keys) w).2).
Proof.
  intros Hasked Hask Hok. destruct w as [db s t]. rewrite get_password_run.
  simpl in Hasked.
  assert (asks update_keys (db !! (system, key)) = true) as ->.
  { unfold asks. destruct Hasked as [-> | ->]; [done | by rewrite orb_true_r]. }
  rewrite Hask, Hok. cbn [snd]. rewrite get_password_run.
  rewrite lookup_insert_eq. unfold asks. simpl. done.
Qed.

Lemma get_password_store_then_read_witness :
  @Common._get_password (Bench.pan_bench 200) "Sophos" "Password" (ModPair false false)
    (@Common._get_password (Bench.pan_bench 200) "Sophos" "Password" (ModPair true false)
       (Bench.pan_world 200 ∅)).2
  = (Return (Some "typed-by-operator"),
     (@Common._get_password (Bench.pan_bench 200) "Sophos" "Password" (ModPair true false)
        (Bench.pan_world 200 ∅)).2).
Proof.
  apply (@get_password_store_then_read (Bench.pan_bench 200) "Sophos" "Password"
           "typed-by-operator" false (Bench.pan_world 200 ∅)).
  - right. reflexivity.
  - reflexivity.
  - reflexivity.
Defined.

(** X3. A write that the credential store refuses is swallowed: with
    [store_keys] set, the secret is still returned, the store is as before,
    and the last thing done is the print of the failure. This also holds
    for a secret that came from the store and was not asked for. *)
Theorem get_password_store_failure_swallowed `{External} (system key p : string)
    (update_keys : bool) (w : world) :
  (Common._get_password system key (ModPair true update_keys) w).1 = Return (Some p) →
  set_password_ok system key p = false →
  keyring_db (Common._get_password system key (ModPair true update_keys) w).2
    = keyring_db w
  ∧ ∃ t0, trace (Common._get_password system key (ModPair true update_keys) w).2
          = t0 ++ [EvPrint "Failed to store password"].
Proof.
  destruct w as [db s t]. rewrite get_password_run. simpl.
  intros [= Hp] Hok. rewrite Hp, Hok. simpl. eauto.
Qed.

Lemma get_password_store_failure_swallowed_witness :
  keyring_db (@Common._get_password (Lab.fixed (λ _, inl RequestException)
                  (λ _, Some "typed") false)
                "Sophos" "Password" (ModPair true false)
                (Lab.start (Lab.fixed (λ _, inl RequestException) (λ _, Some "typed") false)
                   ∅ ())).2
    = ∅
  ∧ ∃ t0, trace (@Common._get_password (Lab.fixed (λ _, inl RequestException)
                    (λ _, Some "typed") false)
                  "Sophos" "Password" (ModPair true false)
                  (Lab.start (Lab.fixed (λ _, inl RequestException) (λ _, Some "typed") false)
                     ∅ ())).2
          = t0 ++ [EvPrint "Failed to store password"].
Proof.
  apply (@get_password_store_failure_swallowed
           (Lab.fixed (λ _, inl RequestException) (λ _, Some "typed") false)
           "Sophos" "Password" "typed" false); reflexivity.
Defined.

(** X4. Resolving one credential touches no other: every other entry of
    the store is as before, the firewalls are as before and no HTTP request
    is sent, whatever [modify] is. *)
Theorem get_password_frame `{External} (system key : string) (modify : modify_arg)
    (other : string * string) (w : world) :
  other ≠ (system, key) →
  keyring_db (Common._get_password system key modify w).2 !! other = keyring_db w !! other
  ∧ fw (Common._get_password system key modify w).2 = fw w
  ∧ http_requests (trace (Common._get_password system key modify w).2)
    = http_requests (trace w).
Proof.
  intros Hother. destruct modify as [b|store_keys update_keys]; [done |].
  destruct w as [db s t]. rewrite get_password_run. simpl.
  destruct (asks update_keys _); simpl;
    (destruct (ask _) as [p|] || destruct (db !! (system, key)) as [p|]);
    try destruct store_keys; try destruct (set_password_ok system key p); simpl;
    rewrite ?lookup_insert_ne by done; rewrite ?http_requests_app; simpl;
    by rewrite ?app_nil_r.
Qed.

Lemma get_password_frame_witness :
  keyring_db (@Common._get_password (Bench.pan_bench 200) Bench.pan_url "password"
                (ModPair true true) (Bench.pan_world 200 Bench.full_keyring)).2
    !! (Bench.pan_url, "API_Key") = Some "cached-token"
  ∧ fw (@Common._get_password (Bench.pan_bench 200) Bench.pan_url "password"
          (ModPair true true) (Bench.pan_world 200 Bench.full_keyring)).2 = ()
  ∧ http_requests (trace (@Common._get_password (Bench.pan_bench 200) Bench.pan_url
      "password" (ModPair true true) (Bench.pan_world 200 Bench.full_keyring)).2) = [].
Proof.
  apply (@get_password_frame (Bench.pan_bench 200) Bench.pan_url "password"
           (ModPair true true) (Bench.pan_url, "API_Key")
           (Bench.pan_world 200 Bench.full_keyring)).
  discriminate.
Defined.

(** X5. Nothing is written when [store_keys] is not set, and nothing is
    written when the operator declines: in both cases the whole credential
    store is as before. *)
Theorem get_password_no_write `{External} (system key : string)
    (store_keys update_keys : bool) (w : world) :
  store_keys = false
  ∨ (Common._get_password system key (ModPair store_keys update_keys) w).1 = Return None →
  keyring_db (Common._get_password system key (ModPair store_keys update_keys) w).2
  = keyring_db w.
Proof.
  destruct w as [db s t]. rewrite get_password_run. simpl.
  intros [-> | Hnone].
  - by destruct (if asks _ _ then _ else _).
  - injection Hnone as Hnone. by rewrite Hnone.
Qed.

Lemma get_password_no_write_witness :
  keyring_db (@Common._get_password Bench.sophos_bench "Sophos" "Password"
                (ModPair true true) (Bench.sophos_world "10.0.0.1")).2
  = ∅.
Proof.
  apply (@get_password_no_write Bench.sophos_bench "Sophos" "Password" true true
           (Bench.sophos_world "10.0.0.1")).
  right. reflexivity.
Defined.

(** ** PAN: the token, further *)

Section Token.
Context `{External}.

Lemma bind_inv_raise {A B} (m : M A) (k : A → M B) (w w' : world) (e : exn) :
  bind m k w = (Raise e, w') →
  m w = (Raise e, w') ∨ ∃ a w1, m w = (Return a, w1) ∧ k a w1 = (Raise e, w').
Proof.
  unfold bind. destruct (m w) as [[a|e'] w1]; [eauto | intros [= -> ->]; by left].
Qed.

Lemma get_keyring_password_run (system username : string) (w : world) :
  ∃ o, Pan._get_keyring_password system username w = (Return o, w).
Proof.
  unfold Pan._get_keyring_password, bind, keyring_get_password, ret.
  destruct (_ || _); eauto.
Qed.

(** The resolver leaves the firewalls, the HTTP trace and the other
    entries of the store alone. *)
Lemma get_password_aside (system key : string) (modify : modify_arg)
    (other : string * string) (w : world) :
  other ≠ (system, key) →
  keyring_db (Common._get_password system key modify w).2 !! other = keyring_db w !! other
  ∧ fw (Common._get_password system key modify w).2 = fw w
  ∧ http_requests (trace (Common._get_password system key modify w).2)
    = http_requests (trace w).
Proof.
  intros Hother. destruct modify as [b|store_keys update_keys]; [done |].
  destruct w as [db s t]. rewrite get_password_run. simpl.
  destruct (asks update_keys _); simpl;
    (destruct (ask _) as [p|] || destruct (db !! (system, key)) as [p|]);
    try destruct store_keys; try destruct (set_password_ok system key p); simpl;
    rewrite ?lookup_insert_ne by done; rewrite ?http_requests_app; simpl;
    by rewrite ?app_nil_r.
Qed.

(** The login data [_get_api_token] gathers: no request is sent, the
    firewalls and the cached token are as before. *)
Lemma payload_aside (pan_url : string) (modify : modify_arg) (go : bool) (w : world) :
  let gather : M (option (list (string * option string))) :=
    if go then
      username <- Common._get_password pan_url "username" modify ;;
      password <- Common._get_password pan_url "password" modify ;;
      ret (Some [("user", username); ("password", password)])
    else ret None in
  keyring_db (gather w).2 !! (pan_url, "API_Key") = keyring_db w !! (pan_url, "API_Key")
  ∧ fw (gather w).2 = fw w
  ∧ http_requests (trace (gather w).2) = http_requests (trace w).
Proof.
  simpl. destruct go; [|done].
  destruct (get_password_aside pan_url "username" modify (pan_url, "API_Key") w)
    as (Hk1 & Hf1 & Ht1); [discriminate |].
  destruct (Common._get_password pan_url "username" modify w) as [[u|e] w1] eqn:Hu;
    [rewrite !(bind_run _ _ _ _ _ Hu) | by rewrite !(bind_raise _ _ _ _ _ Hu)].
  destruct (get_password_aside pan_url "password" modify (pan_url, "API_Key") w1)
    as (Hk2 & Hf2 & Ht2); [discriminate |].
  destruct (Common._get_password pan_url "password" modify w1) as [[p|e] w2] eqn:Hp;
    [rewrite !(bind_run _ _ _ _ _ Hp) | rewrite !(bind_raise _ _ _ _ _ Hp)];
    simpl in *; by rewrite ?Hk2, ?Hf2, ?Ht2.
Qed.

Lemma keygen_key_inv (r : response) (w w' : world) (o : option string) :
  Pan.keygen_key r w = (Return o, w') → w' = w ∧ keygen_token r = o.
Proof.
  unfold Pan.keygen_key, keygen_token. intros Hrun.
  apply bind_inv in Hrun as (root & v1 & Hroot & Hrun).
  apply unwrap_inv in Hroot as [-> ->]. simpl.
  apply bind_inv in Hrun as ([] & v2 & Htag & Hrun).
  destruct (decide (xml_tag root = "response")); [|done].
  injection Htag as <-.
  apply bind_inv in Hrun as (result & v3 & Hres & Hrun).
  apply unwrap_inv in Hres as [-> ->]. simpl.
  apply bind_inv in Hrun as (k & v4 & Hk & Hrun).
  apply unwrap_inv in Hk as [-> ->]. simpl. by injection Hrun as <- <-.
Qed.

Lemma keygen_key_same_world (r : response) (w : world) : (Pan.keygen_key r w).2 = w.
Proof.
  unfold Pan.keygen_key, bind, unwrap, ret, raise.
  repeat (case_match; simplify_eq/=); done.
Qed.

(** A token is returned only after one keygen POST, answered with a reply
    that holds the token, and once the store has taken it. *)
Lemma get_api_token_returns (pan_url : string) (modify : modify_arg)
    (w w' : world) (token : string) :
  Pan._get_api_token pan_url modify w = (Return token, w') →
  ∃ data r s,
    server (keygen_post pan_url data) (fw w) = (inr r, s)
    ∧ keygen_token r = Some token
    ∧ http_requests (trace w') = http_requests (trace w) ++ [keygen_post pan_url data]
    ∧ fw w' = s
    ∧ keyring_db w' !! (pan_url, "API_Key") = Some token.
Proof.
  unfold Pan._get_api_token. intros Hrun.
  apply bind_inv in Hrun as (api_token & w1 & Hkr & Hrun).
  destruct (get_keyring_password_run pan_url "API_Key" w) as [o Hkr'].
  rewrite Hkr' in Hkr. injection Hkr as -> <-.
  apply bind_inv in Hrun as (payload & w2 & Hpay & Hrun).
  pose proof (payload_aside pan_url modify
                (bool_decide (api_token = None) || truthy modify) w) as Haside.
  simpl in Haside. rewrite Hpay in Haside. destruct Haside as (_ & Hf2 & Ht2).
  simpl in Hf2, Ht2.
  apply bind_inv in Hrun as (data & w3 & Hdata & Hrun).
  apply unwrap_inv in Hdata as [-> ->].
  apply bind_inv in Hrun as (r & w4 & Hpost & Hrun).
  apply bind_inv in Hrun as (key & w5 & Hkey & Hrun).
  apply keygen_key_inv in Hkey as [-> Hkey].
  apply bind_inv in Hrun as (key' & w6 & Hkey' & Hrun).
  apply unwrap_inv in Hkey' as [-> ->].
  apply bind_inv in Hrun as ([] & w7 & Hset & Hrun).
  injection Hrun as -> ->.
  unfold requests_post, send in Hpost.
  destruct (server _ (fw w2)) as [[e|r'] s] eqn:Hsrv; [done |].
  injection Hpost as -> <-.
  unfold keyring_set_password in Hset. simpl in Hset.
  destruct (set_password_ok pan_url "API_Key" _); [|done].
  injection Hset as <-. simpl.
  exists data, r, s. rewrite <- Hf2. split; [done |]. split; [done |].
  rewrite http_requests_app, Ht2. simpl. by rewrite lookup_insert_eq.
Qed.

(** When [_get_api_token] raises, the cached token is as it was. *)
Lemma get_api_token_raises (pan_url : string) (modify : modify_arg)
    (w w' : world) (e : exn) :
  Pan._get_api_token pan_url modify w = (Raise e, w') →
  keyring_db w' !! (pan_url, "API_Key") = keyring_db w !! (pan_url, "API_Key").
Proof.
  unfold Pan._get_api_token. intros Hrun.
  destruct (get_keyring_password_run pan_url "API_Key" w) as [api_token Hkr].
  rewrite (bind_run _ _ _ _ _ Hkr) in Hrun.
  pose proof (payload_aside pan_url modify
                (bool_decide (api_token = None) || truthy modify) w) as Haside.
  simpl in Haside.
  apply bind_inv_raise in Hrun as [Hpay | (payload & w2 & Hpay & Hrun)];
    rewrite Hpay in Haside; destruct Haside as (Hk2 & _ & _); simpl in Hk2; [done |].
  rewrite <- Hk2. clear Hpay Hk2 Hkr.
  apply bind_inv_raise in Hrun as [Hdata | (data & w3 & Hdata & Hrun)].
  { destruct payload; [done |]. by injection Hdata as _ <-. }
  apply unwrap_inv in Hdata as [-> ->].
  assert (∀ r v, requests_post (pan_url +:+ "/api/?type=keygen") data false w2 = (r, v) →
                 keyring_db v = keyring_db w2) as Hsend.
  { unfold requests_post, send. intros r v.
    destruct (server _ _) as [[?|?] ?]; by intros [= <- <-]. }
  apply bind_inv_raise in Hrun as [Hpost | (r & w4 & Hpost & Hrun)];
    apply Hsend in Hpost; [by rewrite Hpost |]. rewrite <- Hpost. clear Hpost Hsend.
  pose proof (keygen_key_same_world r w4) as Hsame.
  apply bind_inv_raise in Hrun as [Hkey | (key & w5 & Hkey & Hrun)];
    rewrite Hkey in Hsame; simpl in Hsame; subst; [done |].
  apply bind_inv_raise in Hrun as [Hkey' | (key' & w6 & Hkey' & Hrun)].
  { destruct key; [done |]. by injection Hkey' as _ <-. }
  apply unwrap_inv in Hkey' as [-> ->].
  apply bind_inv_raise in Hrun as [Hset | ([] & w7 & _ & Hrun)]; [|done].
  unfold keyring_set_password in Hset.
  destruct (set_password_ok _ _ _); [done |]. by injection Hset as _ <-.
Qed.

End Token.

(** X6. Whenever [_get_api_token] returns a token, it has sent exactly one
    HTTP request, the keygen POST of that endpoint, and the credential
    store holds the returned token under the key API_Key. *)
Theorem get_api_token_persists `{External} (pan_url : string) (modify : modify_arg)
    (w w' : world) (token : string) :
  Pan._get_api_token pan_url modify w = (Return token, w') →
  (∃ data, http_requests (trace w')
           = http_requests (trace w) ++ [keygen_post pan_url data])
  ∧ keyring_db w' !! (pan_url, "API_Key") = Some token.
Proof.
  intros Hrun.
  destruct (get_api_token_returns pan_url modify w w' token Hrun)
    as (data & r & s & _ & _ & Hsent & _ & Hkept).
  eauto.
Qed.

Lemma get_api_token_persists_witness :
  (∃ data,
     http_requests (trace (@Pan._get_api_token (Bench.pan_bench 200) Bench.pan_url
       (ModPair false false) (Bench.pan_world 200 Bench.full_keyring)).2)
     = [] ++ [keygen_post Bench.pan_url data])
  ∧ keyring_db (@Pan._get_api_token (Bench.pan_bench 200) Bench.pan_url
      (ModPair false false) (Bench.pan_world 200 Bench.full_keyring)).2
    !! (Bench.pan_url, "API_Key") = Some "fresh-token".
Proof.
  apply (@get_api_token_persists (Bench.pan_bench 200) Bench.pan_url (ModPair false false)
           (Bench.pan_world 200 Bench.full_keyring)
           (@Pan._get_api_token (Bench.pan_bench 200) Bench.pan_url (ModPair false false)
              (Bench.pan_world 200 Bench.full_keyring)).2 "fresh-token").
  apply injective_projections; [vm_compute; reflexivity | reflexivity].
Defined.

(** X7. Whenever [_get_api_token] raises, whatever the exception (no reply,
    a reply without a key, a store that refuses the write, an unbound
    payload), the token cached under API_Key is as it was before. *)
Theorem get_api_token_failure_keeps_cache `{External} (pan_url : string)
    (modify : modify_arg) (w w' : world) (e : exn) :
  Pan._get_api_token pan_url modify w = (Raise e, w') →
  keyring_db w' !! (pan_url, "API_Key") = keyring_db w !! (pan_url, "API_Key").
Proof. apply get_api_token_raises. Qed.

Lemma get_api_token_failure_keeps_cache_witness :
  keyring_db (@Pan._get_api_token
                (Lab.fixed (λ _, inr {| status_code := 200; body := None |}) (λ _, None) true)
                Bench.pan_url (ModPair true true)
                (Lab.start (Lab.fixed (λ _, inr {| status_code := 200; body := None |})
                              (λ _, None) true) Bench.full_keyring ())).2
    !! (Bench.pan_url, "API_Key")
  = Some "cached-token".
Proof.
  apply (@get_api_token_failure_keeps_cache
           (Lab.fixed (λ _, inr {| status_code := 200; body := None |}) (λ _, None) true)
           Bench.pan_url (ModPair true true)
           (Lab.start (Lab.fixed (λ _, inr {| status_code := 200; body := None |})
                         (λ _, None) true) Bench.full_keyring ())
           _ ParseError).
  apply injective_projections; [vm_compute; reflexivity | reflexivity].
Defined.

Section TokenStatus.
Context `{External}.

Lemma keygen_key_some (r : response) (k : string) (w : world) :
  keygen_token r = Some k → Pan.keygen_key r w = (Return (Some k), w).
Proof.
  unfold keygen_token, Pan.keygen_key, bind, unwrap, ret, raise.
  destruct (body r) as [root|]; [|done]. simpl.
  destruct (decide (xml_tag root = "response")); [|done].
  destruct (find "result" root) as [result|]; [|done]. simpl.
  destruct (find "key" result) as [key|]; [|done]. simpl. by intros ->.
Qed.

End TokenStatus.

(** X8. The HTTP status of the keygen reply is never looked at: with the
    login in the store, a reply of any status whose body holds a key makes
    [_get_api_token] return that key. *)
Theorem keygen_status_ignored `{External} (pan_url username password key : string)
    (status : Z) (content : option xml) (w : world) (s : Srv) :
  keyring_db w !! (pan_url, "username") = Some username →
  keyring_db w !! (pan_url, "password") = Some password →
  server (keygen_post pan_url [("user", Some username); ("password", Some password)])
    (fw w) = (inr {| status_code := status; body := content |}, s) →
  keygen_token {| status_code := status; body := content |} = Some key →
  set_password_ok pan_url "API_Key" key = true →
  (Pan._get_api_token pan_url (ModPair false false) w).1 = Return key.
Proof.
  intros Hu Hp Hsrv Hkey Hok. destruct w as [db fw0 t]. simpl in *.
  assert (Common._get_password pan_url "username" (ModPair false false) (World db fw0 t)
          = (Return (Some username), World db fw0 t)) as Hu'.
  { rewrite get_password_run, Hu. reflexivity. }
  assert (Common._get_password pan_url "password" (ModPair false false) (World db fw0 t)
          = (Return (Some password), World db fw0 t)) as Hp'.
  { rewrite get_password_run, Hp. reflexivity. }
  unfold Pan._get_api_token.
  destruct (get_keyring_password_run pan_url "API_Key" (World db fw0 t)) as [o Hkr].
  rewrite (bind_run _ _ _ _ _ Hkr). rewrite orb_true_r.
  erewrite (bind_run _ _ (World db fw0 t));
    [| rewrite (bind_run _ _ _ _ _ Hu'), (bind_run _ _ _ _ _ Hp'); reflexivity].
  erewrite (bind_run _ _ (World db fw0 t)); [| reflexivity].
  erewrite (bind_run _ _ (World db fw0 t));
    [| unfold requests_post, send; simpl; unfold keygen_post in Hsrv; rewrite Hsrv;
       reflexivity].
  rewrite (bind_run _ _ _ _ _ (keygen_key_some _ key _ Hkey)).
  unfold bind, unwrap, ret, keyring_set_password. simpl. by rewrite Hok.
Qed.

Lemma keygen_status_ignored_witness :
  (@Pan._get_api_token
     (Lab.fixed (λ _, inr {| status_code := 403; body := body Bench.keygen_reply |})
        (λ _, None) true)
     Bench.pan_url (ModPair false false)
     (Lab.start (Lab.fixed (λ _, inr {| status_code := 403;
                                         body := body Bench.keygen_reply |})
                   (λ _, None) true) Bench.full_keyring ())).1
  = Return "fresh-token".
Proof.
  apply (@keygen_status_ignored
           (Lab.fixed (λ _, inr {| status_code := 403; body := body Bench.keygen_reply |})
              (λ _, None) true)
           Bench.pan_url "admin" "secret" "fresh-token" 403 (body Bench.keygen_reply)
           (Lab.start (Lab.fixed (λ _, inr {| status_code := 403;
                                               body := body Bench.keygen_reply |})
                         (λ _, None) true) Bench.full_keyring ()) ());
    reflexivity.
Defined.

(** ** PAN: construction *)

Section Construction.
Context `{External}.

Lemma collect_tokens (modify : modify_arg) (urls : list string) (w w' : world)
    (fws : list Pan.Firewall) :
  collect urls (λ url, api_key <- Pan._get_api_token url modify ;;
                       ret {| Pan.url := url; Pan.api_key := api_key |}) w
  = (Return fws, w') →
  map Pan.url fws = urls
  ∧ ∃ sent, http_requests (trace w') = http_requests (trace w) ++ sent
            ∧ Forall2 (λ url r, ∃ data, r = keygen_post url data) urls sent.
Proof.
  revert w fws. induction urls as [|url urls IH]; intros w fws Hrun; simpl in Hrun.
  - injection Hrun as <- <-. split; [done |]. exists []. by rewrite app_nil_r.
  - apply bind_inv in Hrun as (f & w1 & Hf & Hrun).
    apply bind_inv in Hf as (token & w0 & Htoken & Hf). injection Hf as <- <-.
    apply bind_inv in Hrun as (rest & w2 & Hrest & Hrun). injection Hrun as <- <-.
    apply IH in Hrest as (Hurls & sent & Hsent & Hall).
    destruct (get_api_token_returns url modify w w0 token Htoken)
      as (data & _ & _ & _ & _ & Hone & _ & _).
    split; [simpl; by rewrite Hurls |].
    exists (keygen_post url data :: sent). split.
    + rewrite Hsent, Hone, <- app_assoc. done.
    + constructor; eauto.
Qed.

End Construction.

(** X9. A PAN client that was constructed has one endpoint per configured
    URL, in the order of the configuration, the SSL flag and the two tags
    of the configuration, and its construction sent exactly one keygen POST
    per URL, in that order, and nothing else. *)
Theorem pan_init_endpoints `{External} (URLS : list string) (VERIFY_SSL : bool)
    (INTERNAL_BLOCK_TAG EXTERNAL_BLOCK_TAG : string) (modify : modify_arg)
    (w w' : world) (client : Pan.Client) :
  Pan.__init__ URLS VERIFY_SSL INTERNAL_BLOCK_TAG EXTERNAL_BLOCK_TAG modify w
    = (Return client, w') →
  map Pan.url (Pan.firewalls client) = URLS
  ∧ Pan.name client = "PAN Client"
  ∧ Pan.verify client = VERIFY_SSL
  ∧ Pan.internal_block_tag client = INTERNAL_BLOCK_TAG
  ∧ Pan.external_block_tag client = EXTERNAL_BLOCK_TAG
  ∧ ∃ sent, http_requests (trace w') = http_requests (trace w) ++ sent
            ∧ Forall2 (λ url r, ∃ data, r = keygen_post url data) URLS sent.
Proof.
  unfold Pan.__init__. intros Hrun.
  apply bind_inv in Hrun as (fws & w1 & Hfws & Hrun). injection Hrun as <- <-.
  apply collect_tokens in Hfws as [Hurls Hsent]. simpl. done.
Qed.

Lemma pan_init_endpoints_witness :
  map Pan.url [ {| Pan.url := Bench.pan_url; Pan.api_key := "fresh-token" |} ]
    = [Bench.pan_url]
  ∧ Pan.name (Lab.pan_of [ {| Pan.url := Bench.pan_url; Pan.api_key := "fresh-token" |} ])
    = "PAN Client"
  ∧ true = true
  ∧ "VectraInternal" = "VectraInternal"
  ∧ "VectraExternal" = "VectraExternal"
  ∧ ∃ sent,
      http_requests (trace (@Pan.__init__ (Bench.pan_bench 200) [Bench.pan_url] true
        "VectraInternal" "VectraExternal" (ModPair false false)
        (Bench.pan_world 200 Bench.full_keyring)).2)
      = [] ++ sent
      ∧ Forall2 (λ url r, ∃ data, r = keygen_post url data) [Bench.pan_url] sent.
Proof.
  apply (@pan_init_endpoints (Bench.pan_bench 200) [Bench.pan_url] true
           "VectraInternal" "VectraExternal" (ModPair false false)
           (Bench.pan_world 200 Bench.full_keyring) _
           (Lab.pan_of [ {| Pan.url := Bench.pan_url; Pan.api_key := "fresh-token" |} ])).
  apply injective_projections; [vm_compute; reflexivity | reflexivity].
Defined.

(** ** PAN: the loop over the endpoints *)

Section Loop.
Context `{External}.

(** A call per endpoint that sends one request and returns when the
    request is answered, raises when it is not. *)
Variable call : Pan.Firewall → M (list string).
Variable req : Pan.Firewall → request.
Hypothesis call_sends : ∀ f w,
  http_requests (trace (call f w).2) = http_requests (trace w) ++ [req f].
Hypothesis call_grows : ∀ f w, trace w `prefix_of` trace (call f w).2.
Hypothesis call_answered : ∀ f w resp s,
  server (req f) (fw w) = (inr resp, s) → ∃ l, (call f w).1 = Return l.
Hypothesis call_failed : ∀ f w e s,
  server (req f) (fw w) = (inl e, s) → (call f w).1 = Raise e.

Lemma loop_completes (fs : list Pan.Firewall) (w : world) :
  (∀ f s, f ∈ fs → ∃ resp s', server (req f) s = (inr resp, s')) →
  ∃ w', for_each fs call w = (Return (), w')
        ∧ http_requests (trace w') = http_requests (trace w) ++ map req fs
        ∧ trace w `prefix_of` trace w'.
Proof.
  revert w. induction fs as [|f fs IH]; intros w Hsrv; simpl.
  - exists w. by rewrite app_nil_r.
  - destruct (Hsrv f (fw w)) as (resp & s & Hs); [by left |].
    destruct (call_answered f w resp s Hs) as [l Hl].
    pose proof (call_sends f w) as Hsent. pose proof (call_grows f w) as Hgrows.
    unfold bind. destruct (call f w) as [[l'|e] w1]; [|done]. simpl in *.
    destruct (IH w1) as (w' & Hrun & Hsent' & Hgrows').
    { intros f' s' Hf'. apply Hsrv. by right. }
    exists w'. split; [done |]. split; [| by etrans].
    rewrite Hsent', Hsent, <- app_assoc. done.
Qed.

Lemma loop_stops (before after : list Pan.Firewall) (f : Pan.Firewall) (e : exn)
    (w : world) :
  (∀ f' s, f' ∈ before → ∃ resp s', server (req f') s = (inr resp, s')) →
  (∀ s, ∃ s', server (req f) s = (inl e, s')) →
  ∃ w', for_each (before ++ f :: after) call w = (Raise e, w')
        ∧ http_requests (trace w')
          = http_requests (trace w) ++ map req (before ++ [f]).
Proof.
  revert w. induction before as [|f0 before IH]; intros w Hsrv Hdown; simpl.
  - destruct (Hdown (fw w)) as [s Hs].
    pose proof (call_failed f w e s Hs) as Hl. pose proof (call_sends f w) as Hsent.
    unfold bind. destruct (call f w) as [[l'|e'] w1]; [done |]. simpl in *.
    injection Hl as ->. by exists w1.
  - destruct (Hsrv f0 (fw w)) as (resp & s & Hs); [by left |].
    destruct (call_answered f0 w resp s Hs) as [l Hl].
    pose proof (call_sends f0 w) as Hsent.
    unfold bind. destruct (call f0 w) as [[l'|e'] w1]; [|done]. simpl in *.
    destruct (IH w1) as (w' & Hrun & Hsent'); [| done |].
    { intros f' s' Hf'. apply Hsrv. by right. }
    exists w'. split; [done |]. rewrite Hsent', Hsent, <- app_assoc. done.
Qed.

End Loop.

Section Endpoints.
Context `{External}.
Variable self : Pan.Client.
Variable ips : list string.
Variable tag : string.

Lemma register_address_grows (f : Pan.Firewall) (w : world) :
  trace w `prefix_of` trace (Pan._register_address self f ips tag w).2.
Proof.
  unfold Pan._register_address, bind, requests_post, send, log, emit, ret.
  repeat (case_match; simplify_eq/=); try (by eexists); by eexists; rewrite <- app_assoc.
Qed.

Lemma unregister_address_grows (f : Pan.Firewall) (w : world) :
  trace w `prefix_of` trace (Pan._unregister_address self f ips tag w).2.
Proof.
  unfold Pan._unregister_address, bind, requests_post, send, log, emit, ret.
  repeat (case_match; simplify_eq/=); try (by eexists); by eexists; rewrite <- app_assoc.
Qed.

Lemma register_address_result (f : Pan.Firewall) (w : world) :
  (Pan._register_address self f ips tag w).1
  = match (server (address_post self f "register" ips tag) (fw w)).1 with
    | inr resp => Return (if bool_decide (status_code resp ∈ [200; 201]%Z) then ips else [])
    | inl e => Raise e
    end.
Proof.
  unfold Pan._register_address, bind, requests_post, send, address_post.
  destruct (server _ _) as [[e|resp] s]; [done |]. simpl. by destruct (bool_decide _).
Qed.

Lemma unregister_address_result (f : Pan.Firewall) (w : world) :
  (Pan._unregister_address self f ips tag w).1
  = match (server (address_post self f "unregister" ips tag) (fw w)).1 with
    | inr resp => Return (if bool_decide (status_code resp ∈ [200; 201]%Z) then ips else [])
    | inl e => Raise e
    end.
Proof.
  unfold Pan._unregister_address, bind, requests_post, send, address_post.
  destruct (server _ _) as [[e|resp] s]; [done |]. simpl. by destruct (bool_decide _).
Qed.

Lemma register_loop_completes (fs : list Pan.Firewall) (w : world) :
  (∀ f s, f ∈ fs →
     ∃ resp s', server (address_post self f "register" ips tag) s = (inr resp, s')) →
  ∃ w', for_each fs (λ f, Pan.call_method self "_register_address" f ips tag) w
        = (Return (), w')
        ∧ http_requests (trace w')
          = http_requests (trace w)
            ++ map (λ f, address_post self f "register" ips tag) fs
        ∧ trace w `prefix_of` trace w'.
Proof.
  apply (loop_completes (λ f, Pan._register_address self f ips tag)
           (λ f, address_post self f "register" ips tag)).
  - intros. apply register_address_sends.
  - intros. apply register_address_grows.
  - intros f w' resp s Hs. rewrite register_address_result, Hs. eauto.
Qed.

Lemma unregister_loop_completes (fs : list Pan.Firewall) (w : world) :
  (∀ f s, f ∈ fs →
     ∃ resp s', server (address_post self f "unregister" ips tag) s = (inr resp, s')) →
  ∃ w', for_each fs (λ f, Pan.call_method self "_unregister_address" f ips tag) w
        = (Return (), w')
        ∧ http_requests (trace w')
          = http_requests (trace w)
            ++ map (λ f, address_post self f "unregister" ips tag) fs
        ∧ trace w `prefix_of` trace w'.
Proof.
  apply (loop_completes (λ f, Pan._unregister_address self f ips tag)
           (λ f, address_post self f "unregister" ips tag)).
  - intros. apply unregister_address_sends.
  - intros. apply unregister_address_grows.
  - intros f w' resp s Hs. rewrite unregister_address_result, Hs. eauto.
Qed.

Lemma register_loop_stops (before after : list Pan.Firewall) (f : Pan.Firewall)
    (e : exn) (w : world) :
  (∀ f' s, f' ∈ before →
     ∃ resp s', server (address_post self f' "register" ips tag) s = (inr resp, s')) →
  (∀ s, ∃ s', server (address_post self f "register" ips tag) s = (inl e, s')) →
  ∃ w', for_each (before ++ f :: after)
          (λ f, Pan.call_method self "_register_address" f ips tag) w
        = (Raise e, w')
        ∧ http_requests (trace w')
          = http_requests (trace w)
            ++ map (λ f, address_post self f "register" ips tag) (before ++ [f]).
Proof.
  apply (loop_stops (λ f, Pan._register_address self f ips tag)
           (λ f, address_post self f "register" ips tag)).
  - intros. apply register_address_sends.
  - intros f0 w' resp s Hs. rewrite register_address_result, Hs. eauto.
  - intros f0 w' e' s Hs. by rewrite register_address_result, Hs.
Qed.

End Endpoints.

(** X10. When the register call to every configured endpoint is answered,
    [block_host] sends exactly one register POST per endpoint, in the order
    of the configuration, each with the one IP of the host and the internal
    tag, and returns that IP: a failure status at one endpoint stops
    nothing. *)
Theorem pan_block_host_posts_every_endpoint `{External} (self : Pan.Client)
    (host : VectraHost) (w : world) :
  (∀ f s, f ∈ Pan.firewalls self →
     ∃ resp s',
       server (address_post self f "register" [host_ip host]
                 (Pan.internal_block_tag self)) s = (inr resp, s')) →
  ∃ w', Pan.block_host self host w = (Return [host_ip host], w')
        ∧ http_requests (trace w')
          = http_requests (trace w)
            ++ map (λ f, address_post self f "register" [host_ip host]
                           (Pan.internal_block_tag self)) (Pan.firewalls self).
Proof.
  intros Hsrv. unfold Pan.block_host.
  destruct (register_loop_completes self [host_ip host] (Pan.internal_block_tag self)
              (Pan.firewalls self) w Hsrv) as (w' & Hloop & Hsent & _).
  exists w'. by rewrite (bind_run _ _ _ _ _ Hloop).
Qed.

Lemma pan_block_host_posts_every_endpoint_witness :
  ∃ w', @Pan.block_host (Lab.fixed (λ _, inr {| status_code := 503; body := None |})
                           (λ _, None) true)
          (Lab.pan_of [Lab.up; Lab.late]) (Bench.host "10.0.0.5")
          (Lab.start (Lab.fixed (λ _, inr {| status_code := 503; body := None |})
                        (λ _, None) true) ∅ ())
        = (Return ["10.0.0.5"], w')
        ∧ http_requests (trace w')
          = [] ++ map (λ f, address_post (Lab.pan_of [Lab.up; Lab.late]) f "register"
                              ["10.0.0.5"] "VectraInternal") [Lab.up; Lab.late].
Proof.
  apply (@pan_block_host_posts_every_endpoint
           (Lab.fixed (λ _, inr {| status_code := 503; body := None |}) (λ _, None) true)
           (Lab.pan_of [Lab.up; Lab.late]) (Bench.host "10.0.0.5")).
  intros f s _. eexists _, _. reflexivity.
Defined.

(** X11. An endpoint that cannot be reached ends [block_host]: the
    transport error goes to the caller, the endpoints before it have been
    sent their register POST, and the endpoints after it are never
    contacted. *)
Theorem pan_block_host_stops_at_unreachable `{External} (self : Pan.Client)
    (host : VectraHost) (before after : list Pan.Firewall) (f : Pan.Firewall)
    (e : exn) (w : world) :
  Pan.firewalls self = before ++ f :: after →
  (∀ f' s, f' ∈ before →
     ∃ resp s',
       server (address_post self f' "register" [host_ip host]
                 (Pan.internal_block_tag self)) s = (inr resp, s')) →
  (∀ s, ∃ s',
     server (address_post self f "register" [host_ip host]
               (Pan.internal_block_tag self)) s = (inl e, s')) →
  ∃ w', Pan.block_host self host w = (Raise e, w')
        ∧ http_requests (trace w')
          = http_requests (trace w)
            ++ map (λ f, address_post self f "register" [host_ip host]
                           (Pan.internal_block_tag self)) (before ++ [f]).
Proof.
  intros Hfs Hup Hdown. unfold Pan.block_host. rewrite Hfs.
  destruct (register_loop_stops self [host_ip host] (Pan.internal_block_tag self)
              before after f e w Hup Hdown) as (w' & Hloop & Hsent).
  exists w'. by rewrite (bind_raise _ _ _ _ _ Hloop).
Qed.

Lemma pan_block_host_stops_at_unreachable_witness :
  ∃ w', @Pan.block_host (Lab.fixed Lab.flaky_reply (λ _, None) true)
          (Lab.pan_of [Lab.up; Lab.down; Lab.late]) (Bench.host "10.0.0.5")
          (Lab.start (Lab.fixed Lab.flaky_reply (λ _, None) true) ∅ ())
        = (Raise RequestException, w')
        ∧ http_requests (trace w')
          = [] ++ map (λ f, address_post (Lab.pan_of [Lab.up; Lab.down; Lab.late]) f
                              "register" ["10.0.0.5"] "VectraInternal")
                    ([Lab.up] ++ [Lab.down]).
Proof.
  apply (@pan_block_host_stops_at_unreachable
           (Lab.fixed Lab.flaky_reply (λ _, None) true)
           (Lab.pan_of [Lab.up; Lab.down; Lab.late]) (Bench.host "10.0.0.5")
           [Lab.up] [Lab.late] Lab.down RequestException).
  - reflexivity.
  - intros f' s Hf'. apply list_elem_of_singleton in Hf' as ->.
    eexists _, _. reflexivity.
  - intros s. eexists. reflexivity.
Defined.

(** X12. [unblock_host] works from the record the host carries for this
    client and never from [host.ip]: when every unregister call is
    answered it sends one unregister POST per endpoint with the recorded
    list and returns that list. A host without a record gets an error log
    line and, all the same, one unregister POST per endpoint, with no entry
    in it, and the empty list is returned. *)
Theorem pan_unblock_host_uses_record `{External} (self : Pan.Client)
    (host : VectraHost) (w : world) :
  (∀ f s, f ∈ Pan.firewalls self →
     ∃ resp s',
       server (address_post self f "unregister"
                 (get_or_empty (host_blocked_elements host) (Pan.name self))
                 (Pan.internal_block_tag self)) s = (inr resp, s')) →
  ∃ w', Pan.unblock_host self host w
        = (Return (get_or_empty (host_blocked_elements host) (Pan.name self)), w')
        ∧ http_requests (trace w')
          = http_requests (trace w)
            ++ map (λ f, address_post self f "unregister"
                           (get_or_empty (host_blocked_elements host) (Pan.name self))
                           (Pan.internal_block_tag self)) (Pan.firewalls self)
        ∧ (host_blocked_elements host !! Pan.name self = None →
           get_or_empty (host_blocked_elements host) (Pan.name self) = []
           ∧ EvLog Error "No IP address found for host {}" [AStr (host_name host)]
             ∈ trace w'
           ∧ ∀ tag, count_entries (Pan.command "unregister" [] tag) = 0).
Proof.
  intros Hsrv. unfold Pan.unblock_host.
  set (ips := get_or_empty (host_blocked_elements host) (Pan.name self)) in *.
  set (noted := if bool_decide (length ips < 1)
                then log Error "No IP address found for host {}" [AStr (host_name host)]
                else ret ()).
  assert (∃ w0, noted w = (Return (), w0)
                ∧ http_requests (trace w0) = http_requests (trace w)
                ∧ (ips = [] → EvLog Error "No IP address found for host {}"
                                [AStr (host_name host)] ∈ trace w0))
    as (w0 & Hnoted & Hsame & Hlogged).
  { unfold noted. case_bool_decide as Hlen.
    - eexists. split; [reflexivity |]. simpl. rewrite http_requests_app. simpl.
      rewrite app_nil_r. split; [done |]. intros _. set_solver.
    - exists w. split; [done |]. split; [done |]. intros ->. simpl in Hlen. lia. }
  rewrite (bind_run _ _ _ _ _ Hnoted).
  destruct (unregister_loop_completes self ips (Pan.internal_block_tag self)
              (Pan.firewalls self) w0 Hsrv) as (w' & Hloop & Hsent & [more Hgrows]).
  exists w'. rewrite (bind_run _ _ _ _ _ Hloop). split; [done |].
  split; [by rewrite Hsent, Hsame |].
  intros Hnone. assert (ips = []) as Hips.
  { unfold ips, get_or_empty. by rewrite Hnone. }
  split; [done |]. split.
  - rewrite Hgrows. apply elem_of_app. left. by apply Hlogged.
  - intros tag0. reflexivity.
Qed.

Lemma pan_unblock_host_uses_record_witness :
  ∃ w', @Pan.unblock_host (Lab.fixed (λ _, inr {| status_code := 200; body := None |})
                             (λ _, None) true)
          (Lab.pan_of [Lab.up; Lab.late]) (Bench.host "10.0.0.5")
          (Lab.start (Lab.fixed (λ _, inr {| status_code := 200; body := None |})
                        (λ _, None) true) ∅ ())
        = (Return [], w')
        ∧ http_requests (trace w')
          = [] ++ map (λ f, address_post (Lab.pan_of [Lab.up; Lab.late]) f "unregister"
                              [] "VectraInternal") [Lab.up; Lab.late]
        ∧ ((∅ : gmap string (list string)) !! "PAN Client" = None →
           get_or_empty (∅ : gmap string (list string)) "PAN Client" = []
           ∧ EvLog Error "No IP address found for host {}" [AStr "workstation"] ∈ trace w'
           ∧ ∀ tag, count_entries (Pan.command "unregister" [] tag) = 0).
Proof.
  apply (@pan_unblock_host_uses_record
           (Lab.fixed (λ _, inr {| status_code := 200; body := None |}) (λ _, None) true)
           (Lab.pan_of [Lab.up; Lab.late]) (Bench.host "10.0.0.5")).
  intros f s _. eexists _, _. reflexivity.
Defined.

(** X13. With no endpoint configured every PAN verb reports success without
    doing anything: [block_host] returns the IP of the host, the detection
    and static-IP verbs return the list they were given or the recorded
    list, and no request is sent. *)
Theorem pan_no_endpoint_reports_success `{External} (self : Pan.Client) (w : world) :
  Pan.firewalls self = [] →
  (∀ host, Pan.block_host self host w = (Return [host_ip host], w))
  ∧ (∀ d, Pan.block_detection self d w = (Return (detection_dst_ips d), w))
  ∧ (∀ d, (Pan.unblock_detection self d w).1
          = Return (get_or_empty (detection_blocked_elements d) (Pan.name self))
          ∧ http_requests (trace (Pan.unblock_detection self d w).2)
            = http_requests (trace w))
  ∧ (∀ host, (Pan.unblock_host self host w).1
             = Return (get_or_empty (host_blocked_elements host) (Pan.name self))
             ∧ http_requests (trace (Pan.unblock_host self host w).2)
               = http_requests (trace w))
  ∧ (∀ ips, (Pan.block_static_dst_ips self ips w).1 = Return (static_dst_ips ips)
            ∧ http_requests (trace (Pan.block_static_dst_ips self ips w).2)
              = http_requests (trace w))
  ∧ (∀ ips, (Pan.unblock_static_dst_ips self ips w).1 = Return (static_dst_ips ips)
            ∧ http_requests (trace (Pan.unblock_static_dst_ips self ips w).2)
              = http_requests (trace w)).
Proof.
  intros Hnone.
  unfold Pan.block_host, Pan.block_detection, Pan.unblock_detection, Pan.unblock_host,
    Pan.block_static_dst_ips, Pan.unblock_static_dst_ips.
  rewrite Hnone. split; [done |]. split; [done |].
  repeat (split; [intros; (split; [try case_bool_decide; done |]);
                  try case_bool_decide; simpl; rewrite ?http_requests_app; simpl;
                  by rewrite ?app_nil_r |]).
  intros; (split; [try case_bool_decide; done |]);
    try case_bool_decide; simpl; rewrite ?http_requests_app; simpl;
    by rewrite ?app_nil_r.
Qed.

Lemma pan_no_endpoint_reports_success_witness :
  (∀ host, @Pan.block_host (Bench.pan_bench 200) (Lab.pan_of []) host
             (Bench.pan_world 200 ∅) = (Return [host_ip host], Bench.pan_world 200 ∅))
  ∧ (∀ d, @Pan.block_detection (Bench.pan_bench 200) (Lab.pan_of []) d
            (Bench.pan_world 200 ∅)
          = (Return (detection_dst_ips d), Bench.pan_world 200 ∅)).
Proof.
  pose proof (@pan_no_endpoint_reports_success (Bench.pan_bench 200) (Lab.pan_of [])
                (Bench.pan_world 200 ∅) eq_refl) as (Hhost & Hdetection & _).
  split; [exact Hhost | exact Hdetection].
Defined.

(** What a register or unregister call gives back is decided by the
    reply alone: the input list for status 200 or 201, the empty list for
    every other status, and a transport error is passed on to the caller. *)
Lemma pan_address_call_result `{External} (self : Pan.Client) (f : Pan.Firewall)
    (ips : list string) (tag : string) (w : world) :
  (Pan._register_address self f ips tag w).1
  = match (server (address_post self f "register" ips tag) (fw w)).1 with
    | inr resp => Return (if bool_decide (status_code resp ∈ [200; 201]%Z) then ips else [])
    | inl e => Raise e
    end
  ∧ (Pan._unregister_address self f ips tag w).1
    = match (server (address_post self f "unregister" ips tag) (fw w)).1 with
      | inr resp =>
          Return (if bool_decide (status_code resp ∈ [200; 201]%Z) then ips else [])
      | inl e => Raise e
      end.
Proof. split; [apply register_address_result | apply unregister_address_result]. Qed.

(** ** Sophos: failures of the fetch and of the push *)

Section SophosFailures.
Context `{External}.
Variable BLOCK_LIST_NAME : string.
Variable self : Sophos.Client.

#[local] Abbreviation fetch := (Get (Sophos.fetch_url BLOCK_LIST_NAME self) false).
#[local] Abbreviation push ip_csv := (Get (Sophos.push_url BLOCK_LIST_NAME self ip_csv) false).

Lemma make_api_call_rejected (request_xml : string) (w : world) (r : response) (s : Srv) :
  server (Get (Sophos.api_url self request_xml) false) (fw w) = (inr r, s) →
  Sophos.http_ok r = false →
  ∃ w', Sophos._make_api_call self request_xml w = (Raise (HTTPError (status_code r)), w')
        ∧ after w [Get (Sophos.api_url self request_xml) false] s w'.
Proof.
  intros Hsrv Hok.
  unfold Sophos._make_api_call, bind, log, emit, requests_get, send, raise_for_status.
  simpl. unfold Sophos.api_url in Hsrv. rewrite Hsrv.
  unfold Sophos.http_ok in Hok. apply negb_false_iff in Hok. rewrite Hok.
  eexists. split; [reflexivity |]. unfold after. simpl.
  rewrite !http_requests_app. simpl. by rewrite app_nil_r.
Qed.

(** The fetch sends its one request, whatever comes back. *)
Lemma get_blocked_ips_sends (w : world) :
  http_requests (trace (Sophos._get_blocked_ips BLOCK_LIST_NAME self w).2)
  = http_requests (trace w) ++ [fetch].
Proof.
  pose proof (make_api_call_sends self (Sophos.get_xml BLOCK_LIST_NAME) w) as Hsend.
  unfold Sophos._get_blocked_ips, bind.
  destruct (Sophos._make_api_call _ _ w) as [[r|e] w1]; simpl in *; [|done].
  unfold Sophos.fromstring, unwrap, bind, ret, raise, log, emit.
  repeat (case_match; simplify_eq/=);
    rewrite ?http_requests_app, Hsend; simpl; by rewrite ?app_nil_r.
Qed.

Lemma get_blocked_ips_rejected (w : world) (r : response) (s : Srv) :
  server fetch (fw w) = (inr r, s) →
  Sophos.http_ok r = false →
  ∃ w', Sophos._get_blocked_ips BLOCK_LIST_NAME self w
        = (Raise (HTTPError (status_code r)), w')
        ∧ after w [fetch] s w'.
Proof.
  intros Hsrv Hok.
  destruct (make_api_call_rejected _ w r s Hsrv Hok) as (w1 & Hcall & Hw1).
  unfold Sophos._get_blocked_ips. rewrite (bind_raise _ _ _ _ _ Hcall). eauto.
Qed.

Lemma get_blocked_ips_no_host (w : world) (r : response) (s : Srv) (root : xml) :
  server fetch (fw w) = (inr r, s) →
  Sophos.http_ok r = true →
  body r = Some root →
  findall "IPHost" root = [] →
  ∃ w', Sophos._get_blocked_ips BLOCK_LIST_NAME self w = (Raise SystemExit, w')
        ∧ after w [fetch] s w'.
Proof.
  intros Hsrv Hok Hbody Hnone.
  destruct (make_api_call_ok self _ w r s Hsrv Hok) as (w1 & Hcall & Ht & Hs & Hk).
  unfold Sophos._get_blocked_ips. rewrite (bind_run _ _ _ _ _ Hcall).
  unfold Sophos.fromstring, bind, unwrap, ret, log, emit, raise. rewrite Hbody, Hnone.
  simpl. eexists. split; [reflexivity |]. unfold after. simpl.
  rewrite http_requests_app, Ht. simpl. by rewrite app_nil_r.
Qed.

Lemma block_ip_fetch_raises (ip : string) (w w1 : world) (e : exn) :
  ipaddress_ip_address ip = true →
  Sophos._get_blocked_ips BLOCK_LIST_NAME self w = (Raise e, w1) →
  Sophos._block_ip BLOCK_LIST_NAME self ip w = (Raise e, w1)
  ∧ Sophos._unblock_ip BLOCK_LIST_NAME self ip w = (Raise e, w1).
Proof.
  intros Hvalid Hget.
  unfold Sophos._block_ip, Sophos._unblock_ip, Sophos._validate_ip_address.
  rewrite Hvalid. by rewrite !(bind_raise _ _ _ _ _ Hget).
Qed.

End SophosFailures.

(** X14. An HTTP error status (400 to 599) on the list fetch is not turned
    into an empty result: [block_host] and [unblock_host] both raise
    [HTTPError] with that status to the caller, after the one request, and
    no push is sent. *)
Theorem sophos_fetch_http_error_raises `{External} (BLOCK_LIST_NAME : string)
    (self : Sophos.Client) (host : VectraHost) (w : world) (r : response) (s : Srv) :
  ipaddress_ip_address (host_ip host) = true →
  server (Get (Sophos.fetch_url BLOCK_LIST_NAME self) false) (fw w) = (inr r, s) →
  (400 ≤ status_code r < 600)%Z →
  ∃ w', Sophos.block_host BLOCK_LIST_NAME self host w
        = (Raise (HTTPError (status_code r)), w')
        ∧ Sophos.unblock_host BLOCK_LIST_NAME self host w
          = (Raise (HTTPError (status_code r)), w')
        ∧ after w [Get (Sophos.fetch_url BLOCK_LIST_NAME self) false] s w'.
Proof.
  intros Hvalid Hsrv Hstatus.
  destruct (get_blocked_ips_rejected BLOCK_LIST_NAME self w r s Hsrv) as (w' & Hget & Hw').
  { unfold Sophos.http_ok. by rewrite bool_decide_eq_true_2. }
  exists w'. destruct (block_ip_fetch_raises BLOCK_LIST_NAME self _ w w' _ Hvalid Hget).
  done.
Qed.

Lemma sophos_fetch_http_error_raises_witness :
  ∃ w', @Sophos.block_host (Lab.fixed (λ _, inr {| status_code := 503; body := None |})
                              (λ _, None) true)
          Bench.BLOCK_LIST_NAME Bench.sophos (Bench.host "10.0.0.3")
          (Lab.start (Lab.fixed (λ _, inr {| status_code := 503; body := None |})
                        (λ _, None) true) ∅ ())
        = (Raise (HTTPError 503), w')
        ∧ @Sophos.unblock_host (Lab.fixed (λ _, inr {| status_code := 503; body := None |})
                                  (λ _, None) true)
            Bench.BLOCK_LIST_NAME Bench.sophos (Bench.host "10.0.0.3")
            (Lab.start (Lab.fixed (λ _, inr {| status_code := 503; body := None |})
                          (λ _, None) true) ∅ ())
          = (Raise (HTTPError 503), w')
        ∧ after (Lab.start (Lab.fixed (λ _, inr {| status_code := 503; body := None |})
                              (λ _, None) true) ∅ ())
            [Get (@Sophos.fetch_url
                    (Lab.fixed (λ _, inr {| status_code := 503; body := None |})
                       (λ _, None) true) Bench.BLOCK_LIST_NAME Bench.sophos) false]
            () w'.
Proof.
  apply (@sophos_fetch_http_error_raises
           (Lab.fixed (λ _, inr {| status_code := 503; body := None |}) (λ _, None) true)
           Bench.BLOCK_LIST_NAME Bench.sophos (Bench.host "10.0.0.3") _
           {| status_code := 503; body := None |} ()).
  - reflexivity.
  - reflexivity.
  - simpl. lia.
Defined.

(** X15. When the reply to the fetch names no [IPHost] at all, [block_host]
    and [unblock_host] end in [SystemExit] (the call of [exit]) after the
    one request: nothing is returned and no push is sent. *)
Theorem sophos_missing_list_exits `{External} (BLOCK_LIST_NAME : string)
    (self : Sophos.Client) (host : VectraHost) (w : world) (r : response) (s : Srv)
    (root : xml) :
  ipaddress_ip_address (host_ip host) = true →
  server (Get (Sophos.fetch_url BLOCK_LIST_NAME self) false) (fw w) = (inr r, s) →
  Sophos.http_ok r = true →
  body r = Some root →
  findall "IPHost" root = [] →
  ∃ w', Sophos.block_host BLOCK_LIST_NAME self host w = (Raise SystemExit, w')
        ∧ Sophos.unblock_host BLOCK_LIST_NAME self host w = (Raise SystemExit, w')
        ∧ after w [Get (Sophos.fetch_url BLOCK_LIST_NAME self) false] s w'.
Proof.
  intros Hvalid Hsrv Hok Hbody Hnone.
  destruct (get_blocked_ips_no_host BLOCK_LIST_NAME self w r s root Hsrv Hok Hbody Hnone)
    as (w' & Hget & Hw').
  exists w'. destruct (block_ip_fetch_raises BLOCK_LIST_NAME self _ w w' _ Hvalid Hget).
  done.
Qed.

Lemma sophos_missing_list_exits_witness :
  ∃ w', @Sophos.block_host (Lab.fixed (λ _, inr (Lab.reply_with 200 [Bench.login_reply]))
                              (λ _, None) true)
          Bench.BLOCK_LIST_NAME Bench.sophos (Bench.host "10.0.0.3")
          (Lab.start (Lab.fixed (λ _, inr (Lab.reply_with 200 [Bench.login_reply]))
                        (λ _, None) true) ∅ ())
        = (Raise SystemExit, w')
        ∧ @Sophos.unblock_host (Lab.fixed (λ _, inr (Lab.reply_with 200 [Bench.login_reply]))
                                  (λ _, None) true)
            Bench.BLOCK_LIST_NAME Bench.sophos (Bench.host "10.0.0.3")
            (Lab.start (Lab.fixed (λ _, inr (Lab.reply_with 200 [Bench.login_reply]))
                          (λ _, None) true) ∅ ())
          = (Raise SystemExit, w')
        ∧ after (Lab.start (Lab.fixed (λ _, inr (Lab.reply_with 200 [Bench.login_reply]))
                              (λ _, None) true) ∅ ())
            [Get (@Sophos.fetch_url
                    (Lab.fixed (λ _, inr (Lab.reply_with 200 [Bench.login_reply]))
                       (λ _, None) true) Bench.BLOCK_LIST_NAME Bench.sophos) false]
            () w'.
Proof.
  apply (@sophos_missing_list_exits
           (Lab.fixed (λ _, inr (Lab.reply_with 200 [Bench.login_reply])) (λ _, None) true)
           Bench.BLOCK_LIST_NAME Bench.sophos (Bench.host "10.0.0.3") _
           (Lab.reply_with 200 [Bench.login_reply]) ()
           (Element "Response" [] None [Bench.login_reply]));
    reflexivity.
Defined.

(** ** Sophos: which list is read, and what is pushed *)

(** X16. When the reply to the fetch names several [IPHost] elements, the
    address list of the first one is the list that is used, and a warning
    is logged. *)
Theorem sophos_first_list_is_used `{External} (BLOCK_LIST_NAME : string)
    (self : Sophos.Client) (w : world) (r : response) (s : Srv) (root first second : xml)
    (others : list xml) (addresses : xml) (text : string) :
  server (Get (Sophos.fetch_url BLOCK_LIST_NAME self) false) (fw w) = (inr r, s) →
  Sophos.http_ok r = true →
  body r = Some root →
  findall "IPHost" root = first :: second :: others →
  find "ListOfIPAddresses" first = Some addresses →
  xml_text addresses = Some text →
  ∃ w', Sophos._get_blocked_ips BLOCK_LIST_NAME self w = (Return (split "," text), w')
        ∧ EvLog Warning
            ("Multiple IPHosts with Name equaling " +:+ dquote +:+ BLOCK_LIST_NAME
             +:+ dquote +:+ " found. Using first one. Please verify firewall is setup according to documentation.")
            [] ∈ trace w'.
Proof.
  intros Hsrv Hok Hbody Hall Haddr Htext.
  destruct (make_api_call_ok self _ w r s Hsrv Hok) as (w1 & Hcall & _).
  unfold Sophos._get_blocked_ips. rewrite (bind_run _ _ _ _ _ Hcall).
  unfold Sophos.fromstring, bind, unwrap, ret, log, emit. rewrite Hbody, Hall. simpl.
  rewrite Haddr, Htext. simpl. eexists. split; [reflexivity |]. simpl. set_solver.
Qed.

Lemma sophos_first_list_is_used_witness :
  ∃ w', @Sophos._get_blocked_ips
          (Lab.fixed (λ _, inr (Lab.reply_with 200 [Lab.iphost "10.0.0.1" "200";
                                                     Lab.iphost "10.0.0.9" "200"]))
             (λ _, None) true)
          Bench.BLOCK_LIST_NAME Bench.sophos
          (Lab.start (Lab.fixed (λ _, inr (Lab.reply_with 200 [Lab.iphost "10.0.0.1" "200";
                                                                Lab.iphost "10.0.0.9" "200"]))
                        (λ _, None) true) ∅ ())
        = (Return (split "," "10.0.0.1"), w')
        ∧ EvLog Warning
            ("Multiple IPHosts with Name equaling " +:+ dquote +:+ Bench.BLOCK_LIST_NAME
             +:+ dquote +:+ " found. Using first one. Please verify firewall is setup according to documentation.")
            [] ∈ trace w'.
Proof.
  apply (@sophos_first_list_is_used
           (Lab.fixed (λ _, inr (Lab.reply_with 200 [Lab.iphost "10.0.0.1" "200";
                                                      Lab.iphost "10.0.0.9" "200"]))
              (λ _, None) true)
           Bench.BLOCK_LIST_NAME Bench.sophos _
           (Lab.reply_with 200 [Lab.iphost "10.0.0.1" "200"; Lab.iphost "10.0.0.9" "200"]) ()
           (Element "Response" [] None [Lab.iphost "10.0.0.1" "200";
                                        Lab.iphost "10.0.0.9" "200"])
           (Lab.iphost "10.0.0.1" "200") (Lab.iphost "10.0.0.9" "200") []
           (Element "ListOfIPAddresses" [] (Some "10.0.0.1") []) "10.0.0.1");
    reflexivity.
Defined.

(** X17. A push that the firewall answers with a status code other than
    200 makes [block_host] return the empty list, although the fetch and
    the push with the new address were both sent. *)
Theorem sophos_rejected_push_returns_nothing `{External} (BLOCK_LIST_NAME : string)
    (self : Sophos.Client) (host : VectraHost) (text code : string) (w : world)
    (r1 r2 : response) (s1 s2 : Srv) :
  ipaddress_ip_address (host_ip host) = true →
  server (Get (Sophos.fetch_url BLOCK_LIST_NAME self) false) (fw w) = (inr r1, s1) →
  Sophos.http_ok r1 = true →
  Sophos.listed_text r1 = Some text →
  host_ip host ∉ split "," text →
  server (Get (Sophos.push_url BLOCK_LIST_NAME self
                 (join "," (split "," text ++ [host_ip host]))) false) s1 = (inr r2, s2) →
  Sophos.http_ok r2 = true →
  Sophos.push_status r2 = Some code →
  code ≠ "200" →
  ∃ w', Sophos.block_host BLOCK_LIST_NAME self host w = (Return [], w')
        ∧ after w [Get (Sophos.fetch_url BLOCK_LIST_NAME self) false;
                   Get (Sophos.push_url BLOCK_LIST_NAME self
                          (join "," (split "," text ++ [host_ip host]))) false] s2 w'.
Proof.
  intros Hvalid Hsrv1 Hok1 Htext Hnotin Hsrv2 Hok2 Hcode Hne.
  destruct (get_blocked_ips_ok BLOCK_LIST_NAME self w r1 s1 text Hsrv1 Hok1 Htext)
    as (w1 & Hget & Hw1).
  pose proof Hw1 as (_ & Hfw1 & _). rewrite <- Hfw1 in Hsrv2.
  destruct (update_blocked_ips_ok BLOCK_LIST_NAME self _ w1 r2 s2 code Hsrv2 Hok2 Hcode)
    as (w2 & Hput & Hw2).
  unfold Sophos.block_host, Sophos._block_ip, Sophos._validate_ip_address. rewrite Hvalid.
  rewrite (bind_run _ _ _ _ _ Hget).
  rewrite (proj2 (contains_false _ _) Hnotin). simpl.
  rewrite (bind_run _ _ _ _ _ Hput). rewrite bool_decide_eq_false_2 by done.
  exists w2. split; [done |]. by apply (after_trans w w1 w2 [_] [_] s1 s2).
Qed.

Lemma sophos_rejected_push_returns_nothing_witness :
  ∃ w', @Sophos.block_host
          (Lab.fixed (λ _, inr (Lab.reply_with 200 [Lab.iphost "10.0.0.1" "500"]))
             (λ _, None) true)
          Bench.BLOCK_LIST_NAME Bench.sophos (Bench.host "10.0.0.2")
          (Lab.start (Lab.fixed (λ _, inr (Lab.reply_with 200 [Lab.iphost "10.0.0.1" "500"]))
                        (λ _, None) true) ∅ ())
        = (Return [], w')
        ∧ after (Lab.start (Lab.fixed (λ _, inr (Lab.reply_with 200
                                                   [Lab.iphost "10.0.0.1" "500"]))
                              (λ _, None) true) ∅ ())
            [Get (@Sophos.fetch_url
                    (Lab.fixed (λ _, inr (Lab.reply_with 200 [Lab.iphost "10.0.0.1" "500"]))
                       (λ _, None) true) Bench.BLOCK_LIST_NAME Bench.sophos) false;
             Get (@Sophos.push_url
                    (Lab.fixed (λ _, inr (Lab.reply_with 200 [Lab.iphost "10.0.0.1" "500"]))
                       (λ _, None) true) Bench.BLOCK_LIST_NAME Bench.sophos
                    (join "," (split "," "10.0.0.1" ++ ["10.0.0.2"]))) false]
            () w'.
Proof.
  apply (@sophos_rejected_push_returns_nothing
           (Lab.fixed (λ _, inr (Lab.reply_with 200 [Lab.iphost "10.0.0.1" "500"]))
              (λ _, None) true)
           Bench.BLOCK_LIST_NAME Bench.sophos (Bench.host "10.0.0.2") "10.0.0.1" "500" _
           (Lab.reply_with 200 [Lab.iphost "10.0.0.1" "500"])
           (Lab.reply_with 200 [Lab.iphost "10.0.0.1" "500"]) () ());
    try reflexivity.
  - apply contains_false. reflexivity.
  - discriminate.
Defined.

(** X18. Unblocking a valid address that the fetched list does not hold
    sends the fetch and no push, and returns the empty list. *)
Theorem sophos_unblock_host_absent `{External} (BLOCK_LIST_NAME : string)
    (self : Sophos.Client) (host : VectraHost) (text : string)
    (w : world) (r : response) (s : Srv) :
  ipaddress_ip_address (host_ip host) = true →
  server (Get (Sophos.fetch_url BLOCK_LIST_NAME self) false) (fw w) = (inr r, s) →
  Sophos.http_ok r = true →
  Sophos.listed_text r = Some text →
  host_ip host ∉ split "," text →
  ∃ w', Sophos.unblock_host BLOCK_LIST_NAME self host w = (Return [], w')
        ∧ after w [Get (Sophos.fetch_url BLOCK_LIST_NAME self) false] s w'.
Proof.
  intros Hvalid Hsrv Hok Htext Hnotin.
  destruct (get_blocked_ips_ok BLOCK_LIST_NAME self w r s text Hsrv Hok Htext)
    as (w1 & Hget & Hw1).
  unfold Sophos.unblock_host, Sophos._unblock_ip, Sophos._validate_ip_address.
  rewrite Hvalid, (bind_run _ _ _ _ _ Hget), (proj2 (contains_false _ _) Hnotin).
  by exists w1.
Qed.

Lemma sophos_unblock_host_absent_witness :
  ∃ w', @Sophos.unblock_host Bench.sophos_bench Bench.BLOCK_LIST_NAME Bench.sophos
          (Bench.host "10.0.0.3") (Bench.sophos_world "10.0.0.1,10.0.0.2")
        = (Return [], w')
        ∧ after (Bench.sophos_world "10.0.0.1,10.0.0.2")
            [Get (@Sophos.fetch_url Bench.sophos_bench Bench.BLOCK_LIST_NAME Bench.sophos)
               false]
            ("10.0.0.1,10.0.0.2" : @Srv Bench.sophos_bench) w'.
Proof.
  apply (@sophos_unblock_host_absent Bench.sophos_bench Bench.BLOCK_LIST_NAME Bench.sophos
           (Bench.host "10.0.0.3") "10.0.0.1,10.0.0.2"
           (Bench.sophos_world "10.0.0.1,10.0.0.2")
           (Bench.fetch_reply "10.0.0.1,10.0.0.2")); try reflexivity.
  apply contains_false. reflexivity.
Defined.

Lemma remove_first (x : string) (l1 l2 : list string) :
  x ∉ l1 → remove x (l1 ++ x :: l2) = Some (l1 ++ l2).
Proof.
  induction l1 as [|y l1 IH]; simpl; intros Hx.
  - by rewrite decide_True.
  - apply not_elem_of_cons in Hx as [Hxy Hx].
    rewrite decide_False by done. by rewrite IH.
Qed.

(** X19. Unblocking takes out one occurrence of the address, the first:
    when the fetched list is [l1], the address, [l2], with the address not
    in [l1], the list pushed is [l1] followed by [l2], in that order. An
    address listed twice is therefore still listed afterwards. *)
Theorem sophos_unblock_removes_first `{External} (BLOCK_LIST_NAME : string)
    (self : Sophos.Client) (host : VectraHost) (text : string) (l1 l2 : list string)
    (w : world) (r1 r2 : response) (s1 s2 : Srv) :
  ipaddress_ip_address (host_ip host) = true →
  server (Get (Sophos.fetch_url BLOCK_LIST_NAME self) false) (fw w) = (inr r1, s1) →
  Sophos.http_ok r1 = true →
  Sophos.listed_text r1 = Some text →
  split "," text = l1 ++ host_ip host :: l2 →
  host_ip host ∉ l1 →
  server (Get (Sophos.push_url BLOCK_LIST_NAME self (join "," (l1 ++ l2))) false) s1
    = (inr r2, s2) →
  Sophos.http_ok r2 = true →
  Sophos.push_status r2 = Some "200" →
  ∃ w', Sophos.unblock_host BLOCK_LIST_NAME self host w = (Return [host_ip host], w')
        ∧ after w [Get (Sophos.fetch_url BLOCK_LIST_NAME self) false;
                   Get (Sophos.push_url BLOCK_LIST_NAME self (join "," (l1 ++ l2))) false]
            s2 w'.
Proof.
  intros Hvalid Hsrv1 Hok1 Htext Hsplit Hfirst Hsrv2 Hok2 Hcode.
  apply (unblock_ip_present BLOCK_LIST_NAME self (host_ip host) text (l1 ++ l2)
           w r1 r2 s1 s2); try done.
  rewrite Hsplit. by apply remove_first.
Qed.

Lemma sophos_unblock_removes_first_witness :
  ∃ w', @Sophos.unblock_host Bench.sophos_bench Bench.BLOCK_LIST_NAME Bench.sophos
          (Bench.host "10.0.0.1") (Bench.sophos_world "10.0.0.1,10.0.0.2,10.0.0.1")
        = (Return ["10.0.0.1"], w')
        ∧ after (Bench.sophos_world "10.0.0.1,10.0.0.2,10.0.0.1")
            [Get (@Sophos.fetch_url Bench.sophos_bench Bench.BLOCK_LIST_NAME Bench.sophos)
               false;
             Get (@Sophos.push_url Bench.sophos_bench Bench.BLOCK_LIST_NAME Bench.sophos
                    (join "," ([] ++ ["10.0.0.2"; "10.0.0.1"]))) false]
            ("10.0.0.2,10.0.0.1" : @Srv Bench.sophos_bench) w'.
Proof.
  apply (@sophos_unblock_removes_first Bench.sophos_bench Bench.BLOCK_LIST_NAME
           Bench.sophos (Bench.host "10.0.0.1") "10.0.0.1,10.0.0.2,10.0.0.1"
           [] ["10.0.0.2"; "10.0.0.1"]
           (Bench.sophos_world "10.0.0.1,10.0.0.2,10.0.0.1")
           (Bench.fetch_reply "10.0.0.1,10.0.0.2,10.0.0.1") Bench.push_reply
           "10.0.0.1,10.0.0.2,10.0.0.1" "10.0.0.2,10.0.0.1");
    first [reflexivity | apply not_elem_of_nil].
Defined.

(** ** Sophos: how the two verbs compose *)





(** X22. Whatever the firewall answers, and whatever the input, the two
    host verbs of the Sophos client stay within bounds: what they return is
    the empty list or the list of the one IP of the host, and what they
    send is nothing, the fetch alone, or the fetch followed by one push. *)
Theorem sophos_host_verbs_bounded `{External} (BLOCK_LIST_NAME : string)
    (self : Sophos.Client) (host : VectraHost) (w : world) :
  within_bounds BLOCK_LIST_NAME self host w (Sophos.block_host BLOCK_LIST_NAME self host w)
  ∧ within_bounds BLOCK_LIST_NAME self host w
      (Sophos.unblock_host BLOCK_LIST_NAME self host w).
Proof.
  unfold within_bounds.
  pose proof (get_blocked_ips_sends BLOCK_LIST_NAME self w) as Hfetch.
  assert (∀ ips w1,
            http_requests (trace w1)
              = http_requests (trace w) ++ [Get (Sophos.fetch_url BLOCK_LIST_NAME self) false] →
            let run := (ok <- Sophos._update_blocked_ips BLOCK_LIST_NAME self ips ;;
                        if ok then ret [host_ip host] else ret []) w1 in
            (∀ l, run.1 = Return l → l = [] ∨ l = [host_ip host])
            ∧ ∃ sent, http_requests (trace run.2) = http_requests (trace w) ++ sent
                      ∧ (sent = []
                         ∨ sent = [Get (Sophos.fetch_url BLOCK_LIST_NAME self) false]
                         ∨ ∃ ip_csv,
                             sent = [Get (Sophos.fetch_url BLOCK_LIST_NAME self) false;
                                     Get (Sophos.push_url BLOCK_LIST_NAME self ip_csv) false]))
    as Hpush.
  { intros ips w1 Hw1. simpl.
    pose proof (update_blocked_ips_sends BLOCK_LIST_NAME self ips w1) as Hsent.
    unfold bind. destruct (Sophos._update_blocked_ips _ _ _ w1) as [[[]|e] w2];
      simpl in *; (split; [intros l [= <-]; eauto |]);
      eexists; (split; [rewrite Hsent, Hw1, <- app_assoc; reflexivity |]); eauto. }
  split;
    unfold Sophos.block_host, Sophos.unblock_host, Sophos._block_ip, Sophos._unblock_ip,
      Sophos._validate_ip_address;
    (destruct (ipaddress_ip_address (host_ip host));
     [| split; [intros l [= <-]; eauto | exists []; rewrite app_nil_r; eauto]]);
    destruct (Sophos._get_blocked_ips BLOCK_LIST_NAME self w) as [[blocked|e] w1] eqn:Hget;
    simpl in Hfetch;
    rewrite ?(bind_run _ _ _ _ _ Hget), ?(bind_raise _ _ _ _ _ Hget);
    try (split; [done | eexists; split; [exact Hfetch | eauto]]).
  - destruct (contains (host_ip host) blocked); simpl.
    + split; [intros l [= <-]; eauto | eexists; split; [exact Hfetch | eauto]].
    + by apply Hpush.
  - destruct (contains (host_ip host) blocked); simpl.
    + destruct (remove (host_ip host) blocked) as [rest|]; simpl.
      * by apply Hpush.
      * split; [done | eexists; split; [exact Hfetch | eauto]].
    + split; [intros l [= <-]; eauto | eexists; split; [exact Hfetch | eauto]].
Qed.

(** ** Sophos: construction *)

Section SophosConstruction.
Context `{External}.

Lemma get_password_result (system key : string) (store_keys update_keys : bool)
    (w : world) :
  (Common._get_password system key (ModPair store_keys update_keys) w).1
  = Return (resolved system key update_keys (keyring_db w)).
Proof. destruct w as [db s t]. by rewrite get_password_run. Qed.

(** The two credentials of the constructor, resolved one after the other. *)
Lemma sophos_credentials (store_keys update_keys : bool) (w : world) :
  ∃ w1 w2,
    Common._get_password "Sophos" "Username" (ModPair store_keys update_keys) w
      = (Return (resolved "Sophos" "Username" update_keys (keyring_db w)), w1)
    ∧ Common._get_password "Sophos" "Password" (ModPair store_keys update_keys) w1
      = (Return (resolved "Sophos" "Password" update_keys (keyring_db w)), w2)
    ∧ fw w2 = fw w
    ∧ http_requests (trace w2) = http_requests (trace w).
Proof.
  pose proof (get_password_result "Sophos" "Username" store_keys update_keys w) as Hu.
  destruct (get_password_aside "Sophos" "Username" (ModPair store_keys update_keys)
              ("Sophos", "Password") w) as (Hk1 & Hf1 & Ht1); [discriminate |].
  destruct (Common._get_password "Sophos" "Username" _ w) as [o1 w1].
  simpl in Hu, Hk1, Hf1, Ht1.
  pose proof (get_password_result "Sophos" "Password" store_keys update_keys w1) as Hp.
  destruct (get_password_aside "Sophos" "Password" (ModPair store_keys update_keys)
              ("Sophos", "Username") w1) as (_ & Hf2 & Ht2); [discriminate |].
  destruct (Common._get_password "Sophos" "Password" _ w1) as [o2 w2] eqn:Hrun.
  simpl in Hp, Hf2, Ht2.
  exists w1, w2. rewrite Hrun. subst o1 o2. unfold resolved. rewrite Hk1.
  split; [done |]. split; [done |]. by rewrite Hf2, Hf1, Ht2, Ht1.
Qed.

Lemma login_check_sends (self : Sophos.Client) (w : world) :
  http_requests (trace (Sophos._login_check self w).2)
  = http_requests (trace w) ++ [Get (Sophos.api_url self "") false].
Proof.
  pose proof (make_api_call_sends self "" w) as Hsend.
  unfold Sophos._login_check, bind.
  destruct (Sophos._make_api_call _ _ w) as [[r|e] w1]; simpl in *; [|done].
  unfold Sophos.fromstring, unwrap, bind, ret, raise, log, emit.
  repeat (case_match; simplify_eq/=);
    rewrite ?http_requests_app, Hsend; simpl; by rewrite ?app_nil_r.
Qed.

Lemma login_check_run (self : Sophos.Client) (w : world) (r : response) (s : Srv)
    (status : option string) :
  server (Get (Sophos.api_url self "") false) (fw w) = (inr r, s) →
  Sophos.http_ok r = true →
  login_status r = Some status →
  (Sophos._login_check self w).1
  = if bool_decide (status = Some "Authentication Successful")
    then Return () else Raise SystemExit.
Proof.
  intros Hsrv Hok Hstatus.
  destruct (make_api_call_ok self "" w r s Hsrv Hok) as (w1 & Hcall & _).
  unfold Sophos._login_check. rewrite (bind_run _ _ _ _ _ Hcall).
  unfold login_status in Hstatus.
  destruct (body r) as [root|] eqn:Hbody; [|done]. simpl in Hstatus.
  destruct (find "Login" root) as [login|] eqn:Hlogin; [|done]. simpl in Hstatus.
  destruct (find "status" login) as [st|] eqn:Hst; [|done]. simpl in Hstatus.
  injection Hstatus as <-.
  unfold Sophos.fromstring, bind, unwrap, ret, log, emit, raise.
  rewrite Hbody, Hlogin, Hst. by case_bool_decide.
Qed.

End SophosConstruction.

(** Once the logger is set up, the reply to the login check decides. *)
Lemma login_decides `{External} (HOSTNAME PORT : string)
    (IS_ENCRYPTED store_keys update_keys : bool) (w : world) (r : response) (s : Srv)
    (status : option string) :
  server (Get (Sophos.api_url
                 (sophos_client HOSTNAME PORT IS_ENCRYPTED
                    (resolved "Sophos" "Username" update_keys (keyring_db w))
                    (resolved "Sophos" "Password" update_keys (keyring_db w))) "") false)
    (fw w) = (inr r, s) →
  Sophos.http_ok r = true →
  login_status r = Some status →
  (Sophos.__init__ HOSTNAME PORT IS_ENCRYPTED (ModPair store_keys update_keys) w).1
  = if bool_decide (status = Some "Authentication Successful")
    then Return (sophos_client HOSTNAME PORT IS_ENCRYPTED
                   (resolved "Sophos" "Username" update_keys (keyring_db w))
                   (resolved "Sophos" "Password" update_keys (keyring_db w)))
    else Raise SystemExit.
Proof.
  intros Hsrv Hok Hstatus.
  destruct (sophos_credentials store_keys update_keys w)
    as (w1 & w2 & Hu & Hp & Hfw & _).
  unfold Sophos.__init__.
  rewrite (bind_run _ _ _ _ _ Hu), (bind_run _ _ _ _ _ Hp).
  rewrite <- Hfw in Hsrv.
  pose proof (login_check_run _ w2 r s status Hsrv Hok Hstatus) as Hcheck.
  unfold sophos_client in Hcheck. unfold bind.
  destruct (Sophos._login_check _ w2) as [[[]|e] w3]; simpl in *;
    case_bool_decide; by simplify_eq.
Qed.

(** Once the logger is set up, one request is sent: the login check. *)
Lemma one_login `{External} (HOSTNAME PORT : string)
    (IS_ENCRYPTED store_keys update_keys : bool) (w : world) :
  http_requests (trace (Sophos.__init__ HOSTNAME PORT IS_ENCRYPTED
                          (ModPair store_keys update_keys) w).2)
  = http_requests (trace w)
    ++ [Get (Sophos.api_url
               (sophos_client HOSTNAME PORT IS_ENCRYPTED
                  (resolved "Sophos" "Username" update_keys (keyring_db w))
                  (resolved "Sophos" "Password" update_keys (keyring_db w))) "") false]
  ∧ (keyring_db w !! ("Sophos", "Username") = None →
     keyring_db w !! ("Sophos", "Password") = None →
     ask (prompt_text "Sophos" "Username") = None →
     ask (prompt_text "Sophos" "Password") = None →
     Sophos.login_xml
       (sophos_client HOSTNAME PORT IS_ENCRYPTED
          (resolved "Sophos" "Username" update_keys (keyring_db w))
          (resolved "Sophos" "Password" update_keys (keyring_db w)))
     = "<Login><Username>None</Username><Password passwordform=" +:+ dquote
       +:+ (if IS_ENCRYPTED then "encrypted" else "plain") +:+ dquote
       +:+ ">None</Password></Login>").
Proof.
  split.
  - destruct (sophos_credentials store_keys update_keys w)
      as (w1 & w2 & Hu & Hp & _ & Hsame).
    unfold Sophos.__init__.
    rewrite (bind_run _ _ _ _ _ Hu), (bind_run _ _ _ _ _ Hp).
    pose proof (login_check_sends
                  (sophos_client HOSTNAME PORT IS_ENCRYPTED
                     (resolved "Sophos" "Username" update_keys (keyring_db w))
                     (resolved "Sophos" "Password" update_keys (keyring_db w))) w2)
      as Hsent.
    unfold sophos_client in *. unfold bind.
    destruct (Sophos._login_check _ w2) as [[[]|e] w3]; simpl in *;
      by rewrite Hsent, Hsame.
  - intros Hu Hp Hau Hap. unfold resolved, asks. rewrite Hu, Hp. simpl.
    rewrite !orb_true_r, Hau, Hap. reflexivity.
Qed.

(** ** Sophos: the set-up of the logger *)

(** X23. Once the logger is set up, the reply to the login check decides
    the construction of the Sophos client: with a status text of exactly
    Authentication Successful the constructor returns the client built from
    the configuration and the resolved credentials; with any other status
    text, or none, it ends in [SystemExit] and no client exists. *)
Theorem sophos_init_login_decides `{External} (cfg : Type)
    (dictConfig_ok : gmap string (SophosLog.entry cfg) → bool)
    (dict_config : option (gmap string (SophosLog.entry cfg)))
    (configured : gmap string (SophosLog.entry cfg)) (HOSTNAME PORT : string)
    (IS_ENCRYPTED store_keys update_keys : bool) (w : world) (r : response) (s : Srv)
    (status : option string) :
  SophosLog.init_log cfg dictConfig_ok "Sophos Client" dict_config = Return configured →
  server (Get (Sophos.api_url
                 (sophos_client HOSTNAME PORT IS_ENCRYPTED
                    (resolved "Sophos" "Username" update_keys (keyring_db w))
                    (resolved "Sophos" "Password" update_keys (keyring_db w))) "") false)
    (fw w) = (inr r, s) →
  Sophos.http_ok r = true →
  login_status r = Some status →
  (SophosLog.__init__ cfg dictConfig_ok HOSTNAME PORT IS_ENCRYPTED dict_config
     (ModPair store_keys update_keys) w).1
  = if bool_decide (status = Some "Authentication Successful")
    then Return (sophos_client HOSTNAME PORT IS_ENCRYPTED
                   (resolved "Sophos" "Username" update_keys (keyring_db w))
                   (resolved "Sophos" "Password" update_keys (keyring_db w)))
    else Raise SystemExit.
Proof.
  intros Hlog Hsrv Hok Hstatus. unfold SophosLog.__init__. rewrite Hlog.
  by eapply login_decides.
Qed.

Lemma sophos_init_login_decides_witness :
  (@SophosLog.__init__ unit (λ _, true)
     (Lab.fixed (λ _, inr (Lab.reply_with 200
                             [Element "Login" [] None
                                [Element "status" [] (Some "Authentication Failure") []]]))
        (λ _, None) true)
     "fw.example" "4444" false
     (Some {[ "loggers" := SophosLog.Table unit {[ "VAR" := () ]} ]})
     (ModPair false false)
     (Lab.start (Lab.fixed (λ _, inr (Lab.reply_with 200
                                        [Element "Login" [] None
                                           [Element "status" []
                                              (Some "Authentication Failure") []]]))
                   (λ _, None) true) Bench.sophos_keyring ())).1
  = Raise SystemExit.
Proof.
  apply (@sophos_init_login_decides
           (Lab.fixed (λ _, inr (Lab.reply_with 200
                                   [Element "Login" [] None
                                      [Element "status" []
                                         (Some "Authentication Failure") []]]))
              (λ _, None) true)
           unit (λ _, true)
           (Some {[ "loggers" := SophosLog.Table unit {[ "VAR" := () ]} ]})
           (<["loggers" := SophosLog.Table unit (<["Sophos Client" := ()]> {[ "VAR" := () ]})]>
              {[ "loggers" := SophosLog.Table unit {[ "VAR" := () ]} ]})
           "fw.example" "4444" false false false
           (Lab.start (Lab.fixed (λ _, inr (Lab.reply_with 200
                                              [Element "Login" [] None
                                                 [Element "status" []
                                                    (Some "Authentication Failure") []]]))
                         (λ _, None) true) Bench.sophos_keyring ())
           (Lab.reply_with 200 [Element "Login" [] None
                                  [Element "status" [] (Some "Authentication Failure") []]])
           () (Some "Authentication Failure")); reflexivity.
Defined.

(** X24. Once the logger is set up, the construction of the Sophos client
    sends exactly one request, the login check with the resolved
    credentials, whatever the firewall answers. A credential that resolves
    to nothing does not stop it: when the store has neither entry and the
    operator declines both prompts, the login is attempted with the word
    None as user name and as password. *)
Theorem sophos_init_sends_one_login `{External} (cfg : Type)
    (dictConfig_ok : gmap string (SophosLog.entry cfg) → bool)
    (dict_config : option (gmap string (SophosLog.entry cfg)))
    (configured : gmap string (SophosLog.entry cfg)) (HOSTNAME PORT : string)
    (IS_ENCRYPTED store_keys update_keys : bool) (w : world) :
  SophosLog.init_log cfg dictConfig_ok "Sophos Client" dict_config = Return configured →
  http_requests (trace (SophosLog.__init__ cfg dictConfig_ok HOSTNAME PORT IS_ENCRYPTED
                          dict_config (ModPair store_keys update_keys) w).2)
  = http_requests (trace w)
    ++ [Get (Sophos.api_url
               (sophos_client HOSTNAME PORT IS_ENCRYPTED
                  (resolved "Sophos" "Username" update_keys (keyring_db w))
                  (resolved "Sophos" "Password" update_keys (keyring_db w))) "") false]
  ∧ (keyring_db w !! ("Sophos", "Username") = None →
     keyring_db w !! ("Sophos", "Password") = None →
     ask (prompt_text "Sophos" "Username") = None →
     ask (prompt_text "Sophos" "Password") = None →
     Sophos.login_xml
       (sophos_client HOSTNAME PORT IS_ENCRYPTED
          (resolved "Sophos" "Username" update_keys (keyring_db w))
          (resolved "Sophos" "Password" update_keys (keyring_db w)))
     = "<Login><Username>None</Username><Password passwordform=" +:+ dquote
       +:+ (if IS_ENCRYPTED then "encrypted" else "plain") +:+ dquote
       +:+ ">None</Password></Login>").
Proof.
  intros Hlog. unfold SophosLog.__init__. rewrite Hlog. apply one_login.
Qed.

Lemma sophos_init_sends_one_login_witness :
  http_requests (trace (@SophosLog.__init__ unit (λ _, true) Bench.sophos_bench
                          "fw.example" "4444" false
                          (Some {[ "loggers" := SophosLog.Table unit {[ "VAR" := () ]} ]})
                          (ModPair true false) (Bench.sophos_world "10.0.0.1")).2)
  = [Get ("https://fw.example:4444/webconsole/APIController?reqxml="
          +:+ "<Request><Login><Username>None</Username><Password passwordform="
          +:+ dquote +:+ "plain" +:+ dquote
          +:+ ">None</Password></Login></Request>") false].
Proof.
  destruct (@sophos_init_sends_one_login Bench.sophos_bench unit (λ _, true)
              (Some {[ "loggers" := SophosLog.Table unit {[ "VAR" := () ]} ]})
              (<["loggers" := SophosLog.Table unit
                                (<["Sophos Client" := ()]> {[ "VAR" := () ]})]>
                 {[ "loggers" := SophosLog.Table unit {[ "VAR" := () ]} ]})
              "fw.example" "4444" false
              true false (Bench.sophos_world "10.0.0.1")) as [Hsent _];
    [reflexivity | exact Hsent].
Defined.

(** ** Sophos: the set-up of the logger *)

(** X25. [init_log] needs a logger named VAR: without a configuration, or
    with one that has no loggers table, it raises [KeyError] for loggers,
    and with a loggers table without VAR it raises [KeyError] for VAR; the
    constructor then raises the same, before any prompt and any request.
    When [init_log] returns, the client's own logger has the configuration
    of VAR, every other logger and every other entry of the configuration
    is as it was, and a second call changes nothing more. *)
Theorem init_log_shares_var `{External} (cfg : Type)
    (dictConfig_ok : gmap string (SophosLog.entry cfg) → bool) (name : string) :
  SophosLog.init_log cfg dictConfig_ok name None = Raise (KeyError "loggers")
  ∧ (∀ dc, dc !! "loggers" = None →
           SophosLog.init_log cfg dictConfig_ok name (Some dc) = Raise (KeyError "loggers"))
  ∧ (∀ dc loggers, dc !! "loggers" = Some (SophosLog.Table cfg loggers) →
                   loggers !! "VAR" = None →
                   SophosLog.init_log cfg dictConfig_ok name (Some dc)
                   = Raise (KeyError "VAR"))
  ∧ (∀ dc e HOSTNAME PORT IS_ENCRYPTED modify w,
       SophosLog.init_log cfg dictConfig_ok "Sophos Client" dc = Raise e →
       SophosLog.__init__ cfg dictConfig_ok HOSTNAME PORT IS_ENCRYPTED dc modify w
       = (Raise e, w))
  ∧ (∀ dc dc', SophosLog.init_log cfg dictConfig_ok name dc = Return dc' →
       SophosLog.logger_of cfg dc' name = SophosLog.logger_of cfg (default ∅ dc) "VAR"
       ∧ is_Some (SophosLog.logger_of cfg dc' name)
       ∧ (∀ k, k ≠ name →
               SophosLog.logger_of cfg dc' k = SophosLog.logger_of cfg (default ∅ dc) k)
       ∧ (∀ k, k ≠ "loggers" → dc' !! k = default ∅ dc !! k)
       ∧ SophosLog.init_log cfg dictConfig_ok name (Some dc') = Return dc').
Proof.
  split; [done |]. split; [by intros dc Hdc; unfold SophosLog.init_log; simpl; rewrite Hdc |].
  split.
  { intros dc loggers Hdc Hvar. unfold SophosLog.init_log. simpl. by rewrite Hdc, Hvar. }
  split.
  { intros dc e HOSTNAME PORT IS_ENCRYPTED modify w Hlog.
    unfold SophosLog.__init__. by rewrite Hlog. }
  intros dc dc'. unfold SophosLog.init_log, SophosLog.logger_of.
  set (dc0 := default ∅ dc).
  destruct (dc0 !! "loggers") as [[loggers|]|] eqn:Hdc; [|done..].
  destruct (loggers !! "VAR") as [var|] eqn:Hvar; [|done].
  destruct (dictConfig_ok _) eqn:Hok; [|done]. intros [= <-].
  rewrite lookup_insert_eq. rewrite lookup_insert_eq.
  split; [done |]. split; [by eexists |].
  split; [by intros k Hk; rewrite lookup_insert_ne |].
  split; [by intros k Hk; rewrite lookup_insert_ne |].
  simpl. rewrite lookup_insert_eq.
  assert (<[name:=var]> loggers !! "VAR" = Some var) as ->.
  { destruct (decide (name = "VAR")) as [->|];
      [by rewrite lookup_insert_eq | by rewrite lookup_insert_ne]. }
  rewrite !insert_insert_eq. by rewrite Hok.
Qed.

(** ** Sophos: the empty list *)

Lemma get_blocked_ips_no_text `{External} (BLOCK_LIST_NAME : string)
    (self : Sophos.Client) (w : world) (r : response) (s : Srv) (root first : xml)
    (rest : list xml) (addresses : xml) :
  server (Get (Sophos.fetch_url BLOCK_LIST_NAME self) false) (fw w) = (inr r, s) →
  Sophos.http_ok r = true →
  body r = Some root →
  findall "IPHost" root = first :: rest →
  find "ListOfIPAddresses" first = Some addresses →
  xml_text addresses = None →
  ∃ w', Sophos._get_blocked_ips BLOCK_LIST_NAME self w
        = (Raise (AttributeError "split"), w')
        ∧ after w [Get (Sophos.fetch_url BLOCK_LIST_NAME self) false] s w'.
Proof.
  intros Hsrv Hok Hbody Hall Haddr Htext.
  destruct (make_api_call_ok self _ w r s Hsrv Hok) as (w1 & Hcall & Ht & Hs & Hk).
  unfold Sophos._get_blocked_ips. rewrite (bind_run _ _ _ _ _ Hcall).
  unfold Sophos.fromstring, bind, unwrap, ret, log, emit, raise. rewrite Hbody, Hall.
  simpl. rewrite Haddr, Htext.
  destruct rest as [|second rest]; simpl;
    (eexists; split; [reflexivity |]); unfold after; simpl;
    rewrite ?http_requests_app, Ht; simpl; by rewrite ?app_nil_r.
Qed.

(** X26. Nothing can be blocked into an empty list. When the list element
    of the first [IPHost] in the reply to the fetch has no text, which is
    how [ET.fromstring] reads an empty element, [block_host] and
    [unblock_host] of a valid address raise [AttributeError] (the call of
    [split] on [None]) after the one request, and no push is sent. *)
Theorem sophos_empty_list_raises `{External} (BLOCK_LIST_NAME : string)
    (self : Sophos.Client) (host : VectraHost) (w : world) (r : response) (s : Srv)
    (root first : xml) (rest : list xml) (addresses : xml) :
  ipaddress_ip_address (host_ip host) = true →
  server (Get (Sophos.fetch_url BLOCK_LIST_NAME self) false) (fw w) = (inr r, s) →
  Sophos.http_ok r = true →
  body r = Some root →
  findall "IPHost" root = first :: rest →
  find "ListOfIPAddresses" first = Some addresses →
  xml_text addresses = None →
  ∃ w', Sophos.block_host BLOCK_LIST_NAME self host w
        = (Raise (AttributeError "split"), w')
        ∧ Sophos.unblock_host BLOCK_LIST_NAME self host w
          = (Raise (AttributeError "split"), w')
        ∧ after w [Get (Sophos.fetch_url BLOCK_LIST_NAME self) false] s w'.
Proof.
  intros Hvalid Hsrv Hok Hbody Hall Haddr Htext.
  destruct (get_blocked_ips_no_text BLOCK_LIST_NAME self w r s root first rest addresses
              Hsrv Hok Hbody Hall Haddr Htext) as (w' & Hget & Hw').
  exists w'. destruct (block_ip_fetch_raises BLOCK_LIST_NAME self _ w w' _ Hvalid Hget).
  done.
Qed.

Lemma sophos_empty_list_raises_witness :
  ∃ w', @Sophos.block_host Bench.sophos_bench Bench.BLOCK_LIST_NAME Bench.sophos
          (Bench.host "10.0.0.3") (Bench.sophos_world "")
        = (Raise (AttributeError "split"), w')
        ∧ @Sophos.unblock_host Bench.sophos_bench Bench.BLOCK_LIST_NAME Bench.sophos
            (Bench.host "10.0.0.3") (Bench.sophos_world "")
          = (Raise (AttributeError "split"), w')
        ∧ after (Bench.sophos_world "")
            [Get (@Sophos.fetch_url Bench.sophos_bench Bench.BLOCK_LIST_NAME Bench.sophos)
               false]
            ("" : @Srv Bench.sophos_bench) w'.
Proof.
  apply (@sophos_empty_list_raises Bench.sophos_bench Bench.BLOCK_LIST_NAME Bench.sophos
           (Bench.host "10.0.0.3") (Bench.sophos_world "") (Bench.fetch_reply "")
           ("" : @Srv Bench.sophos_bench)
           (Element "Response" [] None
              [Bench.login_reply;
               Element "IPHost" [] None
                 [Element "Name" [] (Some Bench.BLOCK_LIST_NAME) [];
                  Element "ListOfIPAddresses" [] None []]])
           (Element "IPHost" [] None
              [Element "Name" [] (Some Bench.BLOCK_LIST_NAME) [];
               Element "ListOfIPAddresses" [] None []])
           [] (Element "ListOfIPAddresses" [] None []));
    reflexivity.
Defined.
